(** * Sandbox abstraction layer ([backend/sandbox/sandbox.py])

    A shallow embedding of the sandbox module: the backend selector computed
    at import time, the local backend that drives a container through
    [subprocess] calls ([LocalProcess], [LocalFS], [LocalSandbox],
    [_ensure_local_sandbox]) and the lifecycle functions
    ([get_or_start_sandbox], [start_supervisord_session], [create_sandbox],
    [delete_sandbox]).

    The module is effectful throughout.  Its effects are modelled by a state
    and exception monad over a [World]: the module globals, a log of every
    call that leaves the process, and the state of the outside world (the
    container runtime and the remote orchestration service), which is an
    arbitrary instance of the [External] interface.

    The two coroutines, [get_or_start_sandbox] and [delete_sandbox], await
    nothing and are embedded as plain functions.  Logging is not modelled,
    so a handler that logs and re-raises is a handler that re-raises.
    [LocalProcess.exec] and [LocalProcess.get_session_command_logs], on which
    no statement below depends, are left out. *)

From Stdlib Require Import ZArith NArith List String Ascii DecimalString.
From Stdlib Require Import Lia Bool DecimalPos DecimalZ.
From Stdlib.Strings Require Import Byte.
From stdpp Require Import base option list gmap.
Import ListNotations.

Local Open Scope list_scope.

(** ** Python text and bytes *)

(** A Python [str] is a sequence of Unicode code points, a [bytes] object a
    sequence of octets. *)
Abbreviation str := (list N).
Abbreviation bytes := (list byte).

(** ASCII literals of the source, as code points. *)
Definition lit (s : string) : str := map Byte.to_N (list_byte_of_string s).
Arguments lit : simpl never.

(** [bool(s)] for a string. *)
Definition truthy (s : str) : bool :=
  match s with [] => false | _ :: _ => true end.

(** [str.isspace] on one code point: the Unicode white space characters. *)
Definition isspace (c : N) : bool :=
  ((9 <=? c) && (c <=? 13) || (28 <=? c) && (c <=? 32)
   || (c =? 133) || (c =? 160) || (c =? 5760)
   || (8192 <=? c) && (c <=? 8202)
   || (c =? 8232) || (c =? 8233) || (c =? 8239) || (c =? 8287)
   || (c =? 12288))%N.

Fixpoint lstrip (s : str) : str :=
  match s with
  | [] => []
  | c :: s' => if isspace c then lstrip s' else s
  end.

Definition rstrip (s : str) : str := rev (lstrip (rev s)).

(** [str.strip()] with no argument. *)
Definition strip (s : str) : str := rstrip (lstrip s).

(** [s.replace(old, new)] for a one-character [old]. *)
Definition replace_char (old : N) (new : str) (s : str) : str :=
  flat_map (fun c => if N.eqb c old then new else [c]) s.

(** [str(n)] for an integer, as used by an f-string field. *)
Definition str_of_int (n : Z) : str := lit (NilZero.string_of_int (Z.to_int n)).

(** *** [bytes.decode()]: strict UTF-8 *)

Definition is_cont (b : N) : bool := ((128 <=? b) && (b <=? 191))%N.
Definition low6 (b : N) : N := N.land b 63.

Fixpoint decode_utf8 (bs : list N) : option str :=
  match bs with
  | [] => Some []
  | b0 :: r0 =>
    if b0 <? 128 then cons b0 <$> decode_utf8 r0
    else if (194 <=? b0) && (b0 <=? 223) then
      match r0 with
      | b1 :: r1 =>
        if is_cont b1
        then cons (N.shiftl (N.land b0 31) 6 + low6 b1) <$> decode_utf8 r1
        else None
      | _ => None
      end
    else if (224 <=? b0) && (b0 <=? 239) then
      match r0 with
      | b1 :: b2 :: r2 =>
        let cp := N.shiftl (N.land b0 15) 12 + N.shiftl (low6 b1) 6 + low6 b2 in
        if is_cont b1 && is_cont b2 && (2048 <=? cp)
           && negb ((55296 <=? cp) && (cp <=? 57343))
        then cons cp <$> decode_utf8 r2
        else None
      | _ => None
      end
    else if (240 <=? b0) && (b0 <=? 244) then
      match r0 with
      | b1 :: b2 :: b3 :: r3 =>
        let cp := N.shiftl (N.land b0 7) 18 + N.shiftl (low6 b1) 12
                  + N.shiftl (low6 b2) 6 + low6 b3 in
        if is_cont b1 && is_cont b2 && is_cont b3
           && (65536 <=? cp) && (cp <=? 1114111)
        then cons cp <$> decode_utf8 r3
        else None
      | _ => None
      end
    else None
  end%N.

Definition decode (b : bytes) : option str := decode_utf8 (map Byte.to_N b).

(** *** [shlex.quote] *)

(** The characters [shlex.quote] leaves alone: [[A-Za-z0-9_@%+=:,./-]]. *)
Definition shlex_safe (c : N) : bool :=
  ((48 <=? c) && (c <=? 57) || (65 <=? c) && (c <=? 90)
   || (97 <=? c) && (c <=? 122) || (c =? 95) || (c =? 64) || (c =? 37)
   || (c =? 43) || (c =? 61) || (c =? 58) || (c =? 44) || (c =? 46)
   || (c =? 47) || (c =? 45))%N.

Definition squote : N := 39.
Definition dquote : N := 34.

Definition shlex_quote (s : str) : str :=
  match s with
  | [] => [squote; squote]
  | _ =>
    if forallb shlex_safe s then s
    else [squote]
         ++ replace_char squote [squote; dquote; squote; dquote; squote] s
         ++ [squote]
  end.

(** ** Values exchanged with the outside world *)

(** Python exceptions that can cross the module. *)
Inductive exn : Type :=
| CalledProcessError (returncode : Z) (cmd : list str)
| OSError (msg : str)
| ValueError (msg : str)
| UnicodeDecodeError
| UnicodeEncodeError
| DaytonaError (msg : str).

Inductive result (A : Type) : Type :=
| Ok (a : A)
| Raise (e : exn).
Arguments Ok {A} a.
Arguments Raise {A} e.

(** What a finished child process leaves behind. *)
Record ProcessExit : Type := {
  exit_status : Z;
  exit_stdout : bytes;
  exit_stderr : bytes }.

(** [subprocess.CompletedProcess]; the streams are [None] unless captured. *)
Record CompletedProcess : Type := {
  returncode : Z;
  stdout : option bytes;
  stderr : option bytes }.

(** Modelled from the spec: [WorkspaceState] of the remote API client is not
    part of this repository; the spec gives the sandbox state as the
    enumeration running, stopped, archived, unknown. *)
Inductive WorkspaceState : Type := RUNNING | STOPPED | ARCHIVED | UNKNOWN.

#[global] Instance WorkspaceState_eq_dec : EqDecision WorkspaceState.
Proof. solve_decision. Defined.

Record Workspace : Type := { state : WorkspaceState }.

(** The remote SDK's [Sandbox], as far as this module reads it. *)
Record Sandbox : Type := {
  sandbox_id : str;
  instance : Workspace }.

Record SessionExecuteRequest : Type := {
  command : str;
  var_async : bool }.

Record CreateSandboxParams : Type := {
  image : str;
  public : bool;
  labels : option (list (str * str));
  env_vars : list (str * str);
  resources : list (str * Z) }.

(** The handle [LocalProcess.execute_session_command] returns. *)
Record CmdResult : Type := {
  cmd_id : str;
  exit_code : Z }.

(** Every call that leaves the process. *)
Inductive Event : Type :=
| Subprocess (args : list str) (input : option bytes)
| GetCurrentSandbox (id : str)
| Start (sandbox : Sandbox)
| Create (params : CreateSandboxParams)
| Remove (sandbox : Sandbox)
| CreateSession (sandbox : Sandbox) (session_id : str)
| ExecuteSessionCommand (sandbox : Sandbox) (session_id : str)
                        (req : SessionExecuteRequest).

(** The outside world: the operating system that launches child processes
    and the remote orchestration service behind the [daytona] client.  Each
    operation may change the world and either answers or raises. *)
Class External (X : Type) : Type := {
  spawn : list str -> option bytes -> X -> result ProcessExit * X;
  daytona_get_current_sandbox : str -> X -> result Sandbox * X;
  daytona_start : Sandbox -> X -> result unit * X;
  daytona_create : CreateSandboxParams -> X -> result Sandbox * X;
  daytona_remove : Sandbox -> X -> result unit * X;
  remote_create_session : Sandbox -> str -> X -> result unit * X;
  remote_execute_session_command :
    Sandbox -> str -> SessionExecuteRequest -> X -> result unit * X }.

(** ** The local backend's objects *)

Record LocalProcess : Type := { process_container_id : str }.

Record LocalFS : Type := { fs_container_id : str }.

(** [LocalSandbox]; [address] is the identity of the Python object. *)
Record LocalSandbox : Type := {
  address : nat;
  id : str;
  process : LocalProcess;
  fs : LocalFS }.

(** What the lifecycle functions hand out: a local or a remote sandbox. *)
Inductive Handle : Type :=
| LocalH (sandbox : LocalSandbox)
| RemoteH (sandbox : Sandbox).

(** ** The world and the monad *)

Record World (X : Type) : Type := {
  ext : X;
  trace : list Event;
  next_address : nat;
  _use_daytona : bool;
  _compose_file : str;
  _local_sandbox : option LocalSandbox }.
Arguments ext {X} w.
Arguments trace {X} w.
Arguments next_address {X} w.
Arguments _use_daytona {X} w.
Arguments _compose_file {X} w.
Arguments _local_sandbox {X} w.

Definition M (X A : Type) : Type := World X -> result A * World X.

Definition ret {X A} (a : A) : M X A := fun w => (Ok a, w).

Definition raise {X A} (e : exn) : M X A := fun w => (Raise e, w).

Definition bind {X A B} (m : M X A) (k : A -> M X B) : M X B :=
  fun w =>
    match m w with
    | (Ok a, w') => k a w'
    | (Raise e, w') => (Raise e, w')
    end.

(** [try: m  except Exception as e: h e] *)
Definition try_except {X A} (m : M X A) (h : exn -> M X A) : M X A :=
  fun w =>
    match m w with
    | (Ok a, w') => (Ok a, w')
    | (Raise e, w') => h e w'
    end.

Declare Scope py_scope.
Delimit Scope py_scope with py.
Notation "x <- m ;; k" := (bind m (fun x => k))
  (at level 100, m at next level, right associativity) : py_scope.
Notation "m ;;; k" := (bind m (fun _ => k))
  (at level 100, right associativity) : py_scope.

Section Primitives.
Context {X : Type} `{External X}.

Definition with_ext (x : X) (e : Event) (w : World X) : World X :=
  {| ext := x; trace := trace w ++ [e]; next_address := next_address w;
     _use_daytona := _use_daytona w; _compose_file := _compose_file w;
     _local_sandbox := _local_sandbox w |}.

Definition set_local_sandbox (v : option LocalSandbox) : M X unit :=
  fun w =>
    (Ok tt,
     {| ext := ext w; trace := trace w; next_address := next_address w;
        _use_daytona := _use_daytona w; _compose_file := _compose_file w;
        _local_sandbox := v |}).

Definition read {A} (f : World X -> A) : M X A := fun w => (Ok (f w), w).

(** One call to the outside: log it, let the world answer. *)
Definition call {A} (e : Event) (op : X -> result A * X) : M X A :=
  fun w => let '(r, x) := op (ext w) in (r, with_ext x e w).

(** [subprocess.run(args, input=..., capture_output=..., check=...)] *)
Definition subprocess_run (args : list str) (input : option bytes)
    (capture_output check : bool) : M X CompletedProcess :=
  (p <- call (Subprocess args input) (spawn args input) ;;
   if check && negb (exit_status p =? 0)%Z
   then raise (CalledProcessError (exit_status p) args)
   else
     ret {| returncode := exit_status p;
            stdout := if capture_output then Some (exit_stdout p) else None;
            stderr := if capture_output then Some (exit_stderr p) else None
         |})%py.

(** [subprocess.check_output(args)] *)
Definition subprocess_check_output (args : list str) : M X bytes :=
  (p <- call (Subprocess args None) (spawn args None) ;;
   if negb (exit_status p =? 0)%Z
   then raise (CalledProcessError (exit_status p) args)
   else ret (exit_stdout p))%py.

(** Allocation of a [LocalSandbox] object: [LocalSandbox(container_id)]. *)
Definition new_LocalSandbox (container_id : str) : M X LocalSandbox :=
  fun w =>
    (Ok {| address := next_address w; id := container_id;
           process := {| process_container_id := container_id |};
           fs := {| fs_container_id := container_id |} |},
     {| ext := ext w; trace := trace w; next_address := S (next_address w);
        _use_daytona := _use_daytona w; _compose_file := _compose_file w;
        _local_sandbox := _local_sandbox w |}).
End Primitives.

(** ** The local backend *)

Coercion lit : string >-> list.
Local Open Scope string_scope.
Local Open Scope list_scope.

Section LocalBackend.
Context {X : Type} `{External X}.
Local Open Scope py_scope.

(** *** [LocalProcess]: sessions over [docker exec] and [tmux] *)

Definition LocalProcess_create_session (self : LocalProcess)
    (session_id : str) : M X unit :=
  subprocess_run
    ["docker" : str; "exec" : str; process_container_id self;
     "tmux" : str; "new-session" : str; "-d" : str; "-s" : str; session_id]
    None false false ;;;
  ret tt.

Definition LocalProcess_delete_session (self : LocalProcess)
    (session_id : str) : M X unit :=
  subprocess_run
    ["docker" : str; "exec" : str; process_container_id self;
     "tmux" : str; "kill-session" : str; "-t" : str; session_id]
    None false false ;;;
  ret tt.

(** The [req] argument: an object with a [command] attribute, or anything
    else, of which [str(req)] is taken. *)
Inductive Req : Type :=
| ReqObject (r : SessionExecuteRequest)
| ReqOther (repr : str).

Definition req_command (req : Req) : str :=
  match req with
  | ReqObject r => command r
  | ReqOther s => s
  end.

Definition LocalProcess_execute_session_command (self : LocalProcess)
    (session_id : str) (req : Req) (var_async : bool) : M X CmdResult :=
  let cmd := req_command req in
  subprocess_run
    ["docker" : str; "exec" : str; process_container_id self;
     "tmux" : str; "send-keys" : str; "-t" : str; session_id; cmd;
     "Enter" : str]
    None false false ;;;
  ret {| cmd_id := cmd; exit_code := 0 |}.

(** *** [LocalFS]: files over [docker exec] *)

Definition LocalFS_create_folder (self : LocalFS) (path permissions : str)
    : M X unit :=
  subprocess_run
    ["docker" : str; "exec" : str; fs_container_id self;
     "mkdir" : str; "-p" : str; path]
    None false false ;;;
  subprocess_run
    ["docker" : str; "exec" : str; fs_container_id self;
     "chmod" : str; permissions; path]
    None false false ;;;
  ret tt.

Definition LocalFS_upload_file (self : LocalFS) (path : str) (data : bytes)
    : M X unit :=
  subprocess_run
    ["docker" : str; "exec" : str; "-i" : str; fs_container_id self;
     "bash" : str; "-c" : str; (lit "cat > " ++ shlex_quote path)%list]
    (Some data) false false ;;;
  ret tt.

Definition LocalFS_download_file (self : LocalFS) (path : str)
    : M X (option bytes) :=
  result <- subprocess_run
    ["docker" : str; "exec" : str; fs_container_id self; "cat" : str; path]
    None true false ;;
  ret (stdout result).

Definition LocalFS_delete_file (self : LocalFS) (path : str) : M X unit :=
  subprocess_run
    ["docker" : str; "exec" : str; fs_container_id self;
     "rm" : str; "-f" : str; path]
    None false false ;;;
  ret tt.

Definition LocalFS_set_file_permissions (self : LocalFS)
    (path permissions : str) : M X unit :=
  subprocess_run
    ["docker" : str; "exec" : str; fs_container_id self;
     "chmod" : str; permissions; path]
    None false false ;;;
  ret tt.

(** *** [LocalSandbox] *)

Definition get_preview_link (self : LocalSandbox) (port : Z) : str :=
  (lit "http://localhost:" ++ str_of_int port)%list.

Definition _ensure_local_sandbox : M X LocalSandbox :=
  cur <- read _local_sandbox ;;
  match cur with
  | Some sandbox => ret sandbox
  | None =>
    f <- read _compose_file ;;
    subprocess_run
      ["docker" : str; "compose" : str; "-f" : str; f; "up" : str; "-d" : str]
      None false true ;;;
    out <- subprocess_check_output
      ["docker" : str; "compose" : str; "-f" : str; f; "ps" : str;
       "-q" : str; "kortix-suna" : str] ;;
    match decode out with
    | None => raise UnicodeDecodeError
    | Some text =>
      let container_id := strip text in
      sandbox <- new_LocalSandbox
        (if truthy container_id then container_id
         else ("local-sandbox" : str)) ;;
      set_local_sandbox (Some sandbox) ;;;
      ret sandbox
    end
  end.
End LocalBackend.

(** ** Module initialisation: the backend selector *)

(** [os.getenv(key, default)] over the process environment. *)
Definition getenv (environ : str -> option str) (key default : str) : str :=
  match environ key with
  | Some v => v
  | None => default
  end.

Definition _daytona_api_key (environ : str -> option str) : str :=
  strip (getenv environ "DAYTONA_API_KEY" []).

(** The module body, run once at import: [environ] is the process
    environment after [load_dotenv()], [compose_file] the text of
    [Path(__file__).parent / "docker" / "docker-compose.yml"]. *)
Definition module_init {X} (environ : str -> option str) (compose_file : str)
    (x : X) : World X :=
  {| ext := x; trace := []; next_address := 0;
     _use_daytona := truthy (_daytona_api_key environ);
     _compose_file := compose_file;
     _local_sandbox := None |}.

(** ** The lifecycle functions *)

Section Lifecycle.
Context {X : Type} `{External X}.
(** [Configuration.SANDBOX_IMAGE_NAME], defined in [utils.config]. *)
Variable SANDBOX_IMAGE_NAME : str.
Local Open Scope py_scope.

(** [sandbox.process.create_session(...)] on whichever object is passed. *)
Definition process_create_session (sandbox : Handle) (session_id : str)
    : M X unit :=
  match sandbox with
  | RemoteH sb =>
    call (CreateSession sb session_id) (remote_create_session sb session_id)
  | LocalH sb => LocalProcess_create_session (process sb) session_id
  end.

Definition process_execute_session_command (sandbox : Handle)
    (session_id : str) (req : SessionExecuteRequest) : M X unit :=
  match sandbox with
  | RemoteH sb =>
    call (ExecuteSessionCommand sb session_id req)
         (remote_execute_session_command sb session_id req)
  | LocalH sb =>
    LocalProcess_execute_session_command (process sb) session_id
      (ReqObject req) true ;;;
    ret tt
  end.

Definition supervisord_request : SessionExecuteRequest :=
  {| command :=
       "exec /usr/bin/supervisord -n -c /etc/supervisor/conf.d/supervisord.conf";
     var_async := true |}.

Definition start_supervisord_session (sandbox : Handle) : M X unit :=
  let session_id : str := "supervisord-session" in
  use <- read _use_daytona ;;
  if negb use then ret tt
  else
    try_except
      (process_create_session sandbox session_id ;;;
       process_execute_session_command sandbox session_id
         supervisord_request)
      (fun e => raise e).

Definition needs_start (sandbox : Sandbox) : bool :=
  bool_decide (state (instance sandbox) = ARCHIVED)
  || bool_decide (state (instance sandbox) = STOPPED).

Definition get_or_start_sandbox (sandbox_id : str) : M X Handle :=
  use <- read _use_daytona ;;
  if negb use then
    sandbox <- _ensure_local_sandbox ;; ret (LocalH sandbox)
  else
    try_except
      (sandbox <- call (GetCurrentSandbox sandbox_id)
                       (daytona_get_current_sandbox sandbox_id) ;;
       sandbox <-
         (if needs_start sandbox then
            try_except
              (call (Start sandbox) (daytona_start sandbox) ;;;
               sandbox <- call (GetCurrentSandbox sandbox_id)
                               (daytona_get_current_sandbox sandbox_id) ;;
               start_supervisord_session (RemoteH sandbox) ;;;
               ret sandbox)
              (fun e => raise e)
          else ret sandbox) ;;
       ret (RemoteH sandbox))
      (fun e => raise e).

Definition sandbox_env_vars (password : str) : list (str * str) :=
  [("CHROME_PERSISTENT_SESSION" : str, "true" : str);
   ("RESOLUTION" : str, "1024x768x24" : str);
   ("RESOLUTION_WIDTH" : str, "1024" : str);
   ("RESOLUTION_HEIGHT" : str, "768" : str);
   ("VNC_PASSWORD" : str, password);
   ("ANONYMIZED_TELEMETRY" : str, "false" : str);
   ("CHROME_PATH" : str, [] : str);
   ("CHROME_USER_DATA" : str, [] : str);
   ("CHROME_DEBUGGING_PORT" : str, "9222" : str);
   ("CHROME_DEBUGGING_HOST" : str, "localhost" : str);
   ("CHROME_CDP" : str, [] : str)].

Definition create_sandbox (password : str) (project_id : option str)
    : M X Handle :=
  use <- read _use_daytona ;;
  if negb use then
    sandbox <- _ensure_local_sandbox ;; ret (LocalH sandbox)
  else
    let labels :=
      match project_id with
      | Some p => if truthy p then Some [("id" : str, p)] else None
      | None => None
      end in
    let params :=
      {| image := SANDBOX_IMAGE_NAME;
         public := true;
         labels := labels;
         env_vars := sandbox_env_vars password;
         resources := [("cpu" : str, 2%Z); ("memory" : str, 4%Z);
                       ("disk" : str, 5%Z)] |} in
    sandbox <- call (Create params) (daytona_create params) ;;
    start_supervisord_session (RemoteH sandbox) ;;;
    ret (RemoteH sandbox).

Definition delete_sandbox (sandbox_id : str) : M X bool :=
  use <- read _use_daytona ;;
  if negb use then
    f <- read _compose_file ;;
    subprocess_run
      ["docker" : str; "compose" : str; "-f" : str; f; "down" : str]
      None false false ;;;
    set_local_sandbox None ;;;
    ret true
  else
    try_except
      (sandbox <- call (GetCurrentSandbox sandbox_id)
                       (daytona_get_current_sandbox sandbox_id) ;;
       call (Remove sandbox) (daytona_remove sandbox) ;;;
       ret true)
      (fun e => raise e).
End Lifecycle.

(** ** A reference model of the outside world

    The theorems about the module's own logic hold for every [External].
    What a file holds after an upload is the container's business, not the
    module's; to state that, to exercise the theorems and to exhibit
    behaviour in a concrete world, this section models a Docker host with one
    compose service, a POSIX shell and [tmux] inside its container, and a
    small remote orchestration service. *)

Definition is_lit (s : string) (x : str) : bool := bool_decide (x = lit s).

(** *** Shell words: the quoting [bash] undoes *)

Definition sh_special (c : N) : bool :=
  ((c =? 36) || (c =? 96) || (c =? 92) || (c =? 33))%N.

Inductive Quoting : Type := Bare | Single | Double.

(** [sh_scan] reads one word up to the end of the script: unquoted safe
    characters, ['...'] and ["..."] segments.  Anything else is out of the
    model ([None]). *)
Fixpoint sh_scan (q : Quoting) (s : str) : option str :=
  match s with
  | [] => match q with Bare => Some [] | _ => None end
  | c :: r =>
    match q with
    | Bare =>
      if (c =? squote)%N then sh_scan Single r
      else if (c =? dquote)%N then sh_scan Double r
      else if shlex_safe c then cons c <$> sh_scan Bare r
      else None
    | Single =>
      if (c =? squote)%N then sh_scan Bare r
      else cons c <$> sh_scan Single r
    | Double =>
      if (c =? dquote)%N then sh_scan Bare r
      else if sh_special c then None
      else cons c <$> sh_scan Double r
    end
  end.

Definition sh_word (s : str) : option str := sh_scan Bare s.

Fixpoint strip_prefix (p s : str) : option str :=
  match p, s with
  | [], _ => Some s
  | a :: p', b :: s' => if (a =? b)%N then strip_prefix p' s' else None
  | _ :: _, [] => None
  end.

(** The target of a script of the form [cat > WORD]. *)
Definition redirect_target (script : str) : option str :=
  match strip_prefix (lit "cat > ") script with
  | Some w => sh_word w
  | None => None
  end.

(** *** The Docker host *)

Record Docker : Type := {
  installed : bool;                       (* the [docker] executable exists *)
  daemon : bool;                          (* the daemon answers *)
  up : bool;                              (* the compose service runs *)
  boots : nat;                            (* how often it was brought up *)
  files : gmap (list N) (list byte);      (* regular files in the container *)
  dirs : gset (list N);                   (* directories in the container *)
  special : gmap (list N) (list byte);    (* devices and the like: what a read
                                             of each yields; what is written
                                             to one is not kept *)
  creatable : list N -> bool;             (* may this path be created? *)
  sessions : gmap (list N) (list (list N)) (* tmux sessions, keys sent *) }.

(** Identifier the runtime gives the container of the [n]-th boot. *)
Definition container_of_boot (n : nat) : str :=
  (lit "c0ffee" ++ str_of_int (Z.of_nat n))%list.

Definition container_name (d : Docker) : str := container_of_boot (boots d).

Definition exited (rc : Z) (out : bytes) : ProcessExit :=
  {| exit_status := rc; exit_stdout := out; exit_stderr := [] |}.

Definition failed (rc : Z) (err : string) : ProcessExit :=
  {| exit_status := rc; exit_stdout := [];
     exit_stderr := list_byte_of_string err |}.

Definition set_fs (fl : gmap (list N) (list byte)) (dr : gset (list N))
    (d : Docker) : Docker :=
  {| installed := installed d; daemon := daemon d; up := up d;
     boots := boots d; files := fl; dirs := dr; special := special d;
     creatable := creatable d; sessions := sessions d |}.

Definition set_installed (i : bool) (d : Docker) : Docker :=
  {| installed := i; daemon := daemon d; up := up d;
     boots := boots d; files := files d; dirs := dirs d; special := special d;
     creatable := creatable d; sessions := sessions d |}.

Definition set_special (sp : gmap (list N) (list byte)) (d : Docker) : Docker :=
  {| installed := installed d; daemon := daemon d; up := up d;
     boots := boots d; files := files d; dirs := dirs d; special := sp;
     creatable := creatable d; sessions := sessions d |}.

Definition set_sessions (ss : gmap (list N) (list (list N))) (d : Docker)
    : Docker :=
  {| installed := installed d; daemon := daemon d; up := up d;
     boots := boots d; files := files d; dirs := dirs d;
     special := special d; creatable := creatable d; sessions := ss |}.

Definition is_dir (d : Docker) (p : str) : bool :=
  is_lit "/" p || bool_decide (p ∈ dirs d).

Definition is_file (d : Docker) (p : str) : bool :=
  bool_decide (is_Some (files d !! p)).

Definition is_special (d : Docker) (p : str) : bool :=
  bool_decide (is_Some (special d !! p)).

(** Can the shell open [p] for writing?  Never the empty path, never a
    directory; otherwise it is the container's business. *)
Definition can_write (d : Docker) (p : str) : bool :=
  truthy p && negb (is_dir d p) && (is_file d p || creatable d p).

(** An operand that begins with [-] is taken for options by [cat]. *)
Definition begins_with_dash (p : str) : bool :=
  match p with
  | c :: _ => (c =? 45)%N
  | [] => false
  end.

(** A command run inside the container. *)
Definition in_container (cmd : list str) (input : option bytes) (d : Docker)
    : ProcessExit * Docker :=
  match cmd with
  | [a; b; c; e; s] =>
    if is_lit "tmux" a && is_lit "new-session" b && is_lit "-d" c
       && is_lit "-s" e
    then match sessions d !! s with
         | Some _ => (failed 1 "duplicate session", d)
         | None => (exited 0 [], set_sessions (<[s := []]> (sessions d)) d)
         end
    else (failed 127 "command not found", d)
  | [a; b; c; s] =>
    if is_lit "tmux" a && is_lit "kill-session" b && is_lit "-t" c
    then match sessions d !! s with
         | Some _ => (exited 0 [], set_sessions (delete s (sessions d)) d)
         | None => (failed 1 "can't find session", d)
         end
    else (failed 127 "command not found", d)
  | [a; b; c; s; keys; k] =>
    if is_lit "tmux" a && is_lit "send-keys" b && is_lit "-t" c
       && is_lit "Enter" k
    then match sessions d !! s with
         | Some typed =>
           (exited 0 [], set_sessions (<[s := typed ++ [keys]]> (sessions d)) d)
         | None => (failed 1 "can't find session", d)
         end
    else (failed 127 "command not found", d)
  | [a; b; p] =>
    if is_lit "mkdir" a && is_lit "-p" b then
      if truthy p && negb (is_file d p) && negb (is_special d p)
         && (is_dir d p || creatable d p)
      then (exited 0 [], set_fs (files d) ({[p]} ∪ dirs d) d)
      else (failed 1 "mkdir: cannot create directory", d)
    else if is_lit "chmod" a then
      if is_file d p || is_dir d p || is_special d p then (exited 0 [], d)
      else (failed 1 "chmod: cannot access", d)
    else if is_lit "rm" a && is_lit "-f" b then
      if is_dir d p then (failed 1 "rm: is a directory", d)
      else (exited 0 [],
            set_special (delete p (special d))
              (set_fs (delete p (files d)) (dirs d) d))
    else if is_lit "bash" a && is_lit "-c" b then
      match redirect_target p with
      | Some f =>
        if is_special d f then (exited 0 [], d)       (* written, not kept *)
        else if can_write d f
        then (exited 0 [],
              set_fs (<[f := default [] input]> (files d)) (dirs d) d)
        else (failed 1 "bash: cannot create file", d)
      | None => (failed 2 "bash: syntax outside the model", d)
      end
    else (failed 127 "command not found", d)
  | [a; p] =>
    if is_lit "cat" a then
      if is_lit "-" p then (exited 0 [], d)          (* standard input *)
      else if begins_with_dash p then (failed 1 "cat: invalid option", d)
      else
        match special d !! p, files d !! p with
        | Some read, _ => (exited 0 read, d)
        | None, Some content => (exited 0 content, d)
        | None, None => (failed 1 "cat: No such file or directory", d)
        end
    else (failed 127 "command not found", d)
  | _ => (failed 127 "command not found", d)
  end.

Definition set_up (u : bool) (n : nat) (d : Docker) : Docker :=
  {| installed := installed d; daemon := daemon d; up := u; boots := n;
     files := if u then files d else ∅; dirs := if u then dirs d else ∅;
     special := special d; creatable := creatable d;
     sessions := if u then sessions d else ∅ |}.

Definition newline : byte := x0a.

Definition encode_ascii (s : str) : bytes :=
  map (fun c => default x3f (Byte.of_N c)) s.

(** The [docker] command line, as far as the module uses it. *)
Definition docker_cli (args : list str) (input : option bytes) (d : Docker)
    : ProcessExit * Docker :=
  if negb (daemon d) then (failed 1 "Cannot connect to the Docker daemon", d)
  else
    match args with
    | a :: b :: c3 :: rest =>
      if is_lit "compose" a && is_lit "-f" b then
        match rest with
        | [c; e] =>
          if is_lit "up" c && is_lit "-d" e then
            (exited 0 [],
             if up d then d else set_up true (S (boots d)) d)
          else (failed 1 "unknown compose command", d)
        | [c; e; s] =>
          if is_lit "ps" c && is_lit "-q" e then
            if up d && is_lit "kortix-suna" s
            then (exited 0 (encode_ascii (container_name d) ++ [newline]), d)
            else (exited 0 [], d)
          else (failed 1 "unknown compose command", d)
        | [c] =>
          if is_lit "down" c then (exited 0 [], set_up false (boots d) d)
          else (failed 1 "unknown compose command", d)
        | _ => (failed 1 "unknown compose command", d)
        end
      else if is_lit "exec" a then
        let run (cid : str) (cmd : list str) :=
          if up d && bool_decide (cid = container_name d)
          then in_container cmd input d
          else (failed 1 "Error response from daemon: No such container", d) in
        if is_lit "-i" b then run c3 rest else run b (c3 :: rest)
      else (failed 1 "unknown docker command", d)
    | _ => (failed 1 "unknown docker command", d)
    end.

(** A code point that the file-system encoding (UTF-8 with the
    [surrogateescape] handler) cannot encode: a surrogate outside
    U+DC80..U+DCFF. *)
Definition lone_surrogate (c : N) : bool :=
  ((55296 <=? c) && (c <=? 57343) && negb ((56448 <=? c) && (c <=? 56575)))%N.

(** What Python raises when it converts one argument for the child: the
    encoding comes first, the search for an embedded NUL second. *)
Definition arg_error (a : str) : option exn :=
  if existsb lone_surrogate a then Some UnicodeEncodeError
  else if existsb (N.eqb 0) a then Some (ValueError (lit "embedded null byte"))
  else None.

(** The arguments are converted in order; the first that fails decides. *)
Fixpoint args_error (args : list str) : option exn :=
  match args with
  | [] => None
  | a :: rest =>
    match arg_error a with
    | Some e => Some e
    | None => args_error rest
    end
  end.

(** [subprocess] launching a child: an argument that cannot be encoded or
    has an embedded NUL is refused by Python before anything runs, a missing
    executable by the operating system.  The container names a path by the
    code points of the argument. *)
Definition docker_spawn (args : list str) (input : option bytes) (d : Docker)
    : result ProcessExit * Docker :=
  match args_error args with
  | Some e => (Raise e, d)
  | None =>
    match args with
    | prog :: rest =>
      if is_lit "docker" prog && installed d
      then let '(p, d') := docker_cli rest input d in (Ok p, d')
      else (Raise (OSError (lit "No such file or directory")), d)
    | [] => (Raise (ValueError (lit "empty argument list")), d)
    end
  end.

(** *** The remote orchestration service *)

Record Cloud : Type := {
  reachable : bool;                       (* the API answers *)
  capacity : bool;                        (* [start] requests are accepted *)
  prompt : bool;                          (* [start] returns when done *)
  sandboxes : gmap (list N) WorkspaceState;
  created : nat;                          (* sandboxes created so far *)
  remote_sessions : list (list N * list N);
  remote_commands : list (list N * list N * list N) }.

Definition set_sandboxes (m : gmap (list N) WorkspaceState) (n : nat)
    (c : Cloud) : Cloud :=
  {| reachable := reachable c; capacity := capacity c; prompt := prompt c;
     sandboxes := m;
     created := n; remote_sessions := remote_sessions c;
     remote_commands := remote_commands c |}.

Definition set_remote_sessions (ss : list (list N * list N))
    (cs : list (list N * list N * list N)) (c : Cloud) : Cloud :=
  {| reachable := reachable c; capacity := capacity c; prompt := prompt c;
     sandboxes := sandboxes c;
     created := created c; remote_sessions := ss; remote_commands := cs |}.

Definition api_error {A} (c : Cloud) (msg : string) : result A * Cloud :=
  (Raise (DaytonaError (lit msg)), c).

Definition cloud_get (sid : str) (c : Cloud) : result Sandbox * Cloud :=
  if negb (reachable c) then api_error c "connection refused"
  else match sandboxes c !! sid with
       | Some st =>
         (Ok {| sandbox_id := sid; instance := {| state := st |} |}, c)
       | None => api_error c "sandbox not found"
       end.

(** A prompt service has the sandbox running when [start] returns; otherwise
    the request is accepted and the transition is still to come. *)
Definition cloud_start (sb : Sandbox) (c : Cloud) : result unit * Cloud :=
  if negb (reachable c) then api_error c "connection refused"
  else if negb (capacity c) then api_error c "no capacity to start the sandbox"
  else match sandboxes c !! sandbox_id sb with
       | Some _ =>
         (Ok tt,
          if prompt c
          then set_sandboxes (<[sandbox_id sb := RUNNING]> (sandboxes c))
                             (created c) c
          else c)
       | None => api_error c "sandbox not found"
       end.

Definition cloud_create (params : CreateSandboxParams) (c : Cloud)
    : result Sandbox * Cloud :=
  if negb (reachable c) then api_error c "connection refused"
  else
    let sid := (lit "sb-" ++ str_of_int (Z.of_nat (S (created c))))%list in
    (Ok {| sandbox_id := sid; instance := {| state := RUNNING |} |},
     set_sandboxes (<[sid := RUNNING]> (sandboxes c)) (S (created c)) c).

Definition cloud_remove (sb : Sandbox) (c : Cloud) : result unit * Cloud :=
  if negb (reachable c) then api_error c "connection refused"
  else match sandboxes c !! sandbox_id sb with
       | Some _ =>
         (Ok tt, set_sandboxes (delete (sandbox_id sb) (sandboxes c))
                               (created c) c)
       | None => api_error c "sandbox not found"
       end.

Definition cloud_create_session (sb : Sandbox) (session : str) (c : Cloud)
    : result unit * Cloud :=
  if negb (reachable c) then api_error c "connection refused"
  else
    (Ok tt,
     set_remote_sessions (remote_sessions c ++ [(sandbox_id sb, session)])
                         (remote_commands c) c).

Definition cloud_execute_session_command (sb : Sandbox) (session : str)
    (req : SessionExecuteRequest) (c : Cloud) : result unit * Cloud :=
  if negb (reachable c) then api_error c "connection refused"
  else
    (Ok tt,
     set_remote_sessions (remote_sessions c)
       (remote_commands c ++ [(sandbox_id sb, session, command req)]) c).

(** *** Both together *)

Record Host : Type := { docker : Docker; cloud : Cloud }.

Definition on_docker {A} (f : Docker -> A * Docker) (h : Host) : A * Host :=
  let '(a, d) := f (docker h) in (a, {| docker := d; cloud := cloud h |}).

Definition on_cloud {A} (f : Cloud -> A * Cloud) (h : Host) : A * Host :=
  let '(a, c) := f (cloud h) in (a, {| docker := docker h; cloud := c |}).

#[global] Instance Host_External : External Host := {
  spawn args input := on_docker (docker_spawn args input);
  daytona_get_current_sandbox sid := on_cloud (cloud_get sid);
  daytona_start sb := on_cloud (cloud_start sb);
  daytona_create params := on_cloud (cloud_create params);
  daytona_remove sb := on_cloud (cloud_remove sb);
  remote_create_session sb s := on_cloud (cloud_create_session sb s);
  remote_execute_session_command sb s r :=
    on_cloud (cloud_execute_session_command sb s r) }.

(** A healthy Docker host on which nothing runs yet. *)
Definition fresh_docker : Docker :=
  {| installed := true; daemon := true; up := false; boots := 0;
     files := ∅; dirs := ∅; special := {[ lit "/dev/null" := [] ]};
     creatable := fun _ => true; sessions := ∅ |}.

(** The same host with the daemon stopped: every [docker] command fails. *)
Definition dead_docker : Docker :=
  {| installed := true; daemon := false; up := false; boots := 0;
     files := ∅; dirs := ∅; special := {[ lit "/dev/null" := [] ]};
     creatable := fun _ => true; sessions := ∅ |}.

(** A service that knows one sandbox, [sb-1], in state [st]. *)
Definition cloud_with (cap pr : bool) (st : WorkspaceState) : Cloud :=
  {| reachable := true; capacity := cap; prompt := pr;
     sandboxes := {[ lit "sb-1" := st ]}; created := 1;
     remote_sessions := []; remote_commands := [] |}.

Definition host (d : Docker) (c : Cloud) : Host :=
  {| docker := d; cloud := c |}.

Definition no_environ : str -> option str := fun _ => None.

Definition environ_with (key value : str) : str -> option str :=
  fun k => if bool_decide (k = key) then Some value else None.

Definition compose_path : str :=
  "/app/backend/sandbox/docker/docker-compose.yml".

(** The module imported without a credential, on a healthy Docker host. *)
Definition local_world (d : Docker) : World Host :=
  module_init no_environ compose_path (host d (cloud_with true true STOPPED)).

(** The module imported with a credential. *)
Definition remote_world (c : Cloud) : World Host :=
  module_init (environ_with "DAYTONA_API_KEY" "secret") compose_path
              (host fresh_docker c).

(** Run a computation and keep the answer. *)
Definition answer {X A} (m : M X A) (w : World X) : result A := fst (m w).
Definition after {X A} (m : M X A) (w : World X) : World X := snd (m w).

(** ** The vocabulary of the statements *)

(** The events a run from [w] to [w'] added to the log. *)
Definition new_events {X} (w w' : World X) : list Event :=
  drop (length (trace w)) (trace w').

Definition is_start (e : Event) : bool :=
  match e with Start _ => true | _ => false end.

Definition is_get (e : Event) : bool :=
  match e with GetCurrentSandbox _ => true | _ => false end.

Definition is_create_session (e : Event) : bool :=
  match e with CreateSession _ _ => true | _ => false end.

Definition is_execute (e : Event) : bool :=
  match e with ExecuteSessionCommand _ _ _ => true | _ => false end.

Definition is_subprocess (e : Event) : bool :=
  match e with Subprocess _ _ => true | _ => false end.

Definition count (p : Event -> bool) (l : list Event) : nat :=
  length (List.filter p l).

Definition supervisord_session : str := "supervisord-session".

Definition sb1 (st : WorkspaceState) : Sandbox :=
  {| sandbox_id := "sb-1"; instance := {| state := st |} |}.

Definition up_args (f : str) : list str :=
  ["docker" : str; "compose" : str; "-f" : str; f; "up" : str; "-d" : str].

Definition ps_args (f : str) : list str :=
  ["docker" : str; "compose" : str; "-f" : str; f; "ps" : str; "-q" : str;
   "kortix-suna" : str].

Definition down_args (f : str) : list str :=
  ["docker" : str; "compose" : str; "-f" : str; f; "down" : str].

(** The identifier [_ensure_local_sandbox] derives from the lookup's output. *)
Definition container_id_of (text : str) : str :=
  if truthy (strip text) then strip text else "local-sandbox".

Definition make_LocalSandbox (a : nat) (cid : str) : LocalSandbox :=
  {| address := a; id := cid;
     process := {| process_container_id := cid |};
     fs := {| fs_container_id := cid |} |}.

(** The world after a successful provisioning. *)
Definition provisioned {X} (w : World X) (x : X) (sb : LocalSandbox)
    : World X :=
  {| ext := x;
     trace := trace w ++ [Subprocess (up_args (_compose_file w)) None;
                          Subprocess (ps_args (_compose_file w)) None];
     next_address := S (next_address w);
     _use_daytona := _use_daytona w;
     _compose_file := _compose_file w;
     _local_sandbox := Some sb |}.

(** The two provisioning commands succeed in [w] and the lookup prints
    [text]. *)
Definition provisioning_succeeds {X} `{External X} (w : World X) (x : X)
    (text : str) : Prop :=
  exists p1 x1 p2,
    spawn (up_args (_compose_file w)) None (ext w) = (Ok p1, x1)
    /\ exit_status p1 = 0%Z
    /\ spawn (ps_args (_compose_file w)) None x1 = (Ok p2, x)
    /\ exit_status p2 = 0%Z
    /\ decode (exit_stdout p2) = Some text.

(** Every sandbox the module holds was allocated before. *)
Definition heap_ok {X} (w : World X) : Prop :=
  forall sb, _local_sandbox w = Some sb -> address sb < next_address w.

Definition is_up (f : str) (e : Event) : bool :=
  match e with
  | Subprocess args _ => bool_decide (args = up_args f)
  | _ => false
  end.

Definition is_ps (f : str) (e : Event) : bool :=
  match e with
  | Subprocess args _ => bool_decide (args = ps_args f)
  | _ => false
  end.

(** The ways the ensure operation is reached. *)
Inductive EnsureCall : Type :=
| Direct
| ViaGetOrStart (sandbox_id : str)
| ViaCreate (password : str) (project_id : option str).

Definition run_call {X} `{External X} (img : str) (c : EnsureCall)
    : M X Handle :=
  match c with
  | Direct => bind _ensure_local_sandbox (fun s => ret (LocalH s))
  | ViaGetOrStart sid => get_or_start_sandbox sid
  | ViaCreate pw pid => create_sandbox img pw pid
  end.

(** Calls made one after the other; an exception does not stop the caller
    from making the next call. *)
Fixpoint run_calls {X} `{External X} (img : str) (cs : list EnsureCall)
    (w : World X) : list (result Handle) * World X :=
  match cs with
  | [] => ([], w)
  | c :: cs' =>
    let '(r, w1) := run_call img c w in
    let '(rs, w2) := run_calls img cs' w1 in
    (r :: rs, w2)
  end.

(** The command lines the local operations launch. *)
Definition new_session_args (cid sid : str) : list str :=
  ["docker" : str; "exec" : str; cid; "tmux" : str; "new-session" : str;
   "-d" : str; "-s" : str; sid].

Definition kill_session_args (cid sid : str) : list str :=
  ["docker" : str; "exec" : str; cid; "tmux" : str; "kill-session" : str;
   "-t" : str; sid].

Definition send_keys_args (cid sid cmd : str) : list str :=
  ["docker" : str; "exec" : str; cid; "tmux" : str; "send-keys" : str;
   "-t" : str; sid; cmd; "Enter" : str].

Definition mkdir_args (cid path : str) : list str :=
  ["docker" : str; "exec" : str; cid; "mkdir" : str; "-p" : str; path].

Definition chmod_args (cid permissions path : str) : list str :=
  ["docker" : str; "exec" : str; cid; "chmod" : str; permissions; path].

Definition rm_args (cid path : str) : list str :=
  ["docker" : str; "exec" : str; cid; "rm" : str; "-f" : str; path].

Definition upload_args (cid path : str) : list str :=
  ["docker" : str; "exec" : str; "-i" : str; cid; "bash" : str; "-c" : str;
   lit "cat > " ++ shlex_quote path].

Definition cat_args (cid path : str) : list str :=
  ["docker" : str; "exec" : str; cid; "cat" : str; path].

Definition bash_args (cid script : str) : list str :=
  ["docker" : str; "exec" : str; "-i" : str; cid; "bash" : str; "-c" : str;
   script].

(** The container keeps an ordinary file at [path]: its shell, given any
    script that it reads as [cat > path] and [data] on standard input, runs
    and leaves a state in which [cat path] prints exactly [data].  This is a
    condition on the container, not on the module. *)
Definition keeps_file {X} `{External X} (cid path : str) (data : bytes)
    (x : X) : Prop :=
  forall script : str,
    redirect_target script = Some path ->
    exists p1 x1 p2 x2,
      spawn (bash_args cid script) (Some data) x = (Ok p1, x1)
      /\ spawn (cat_args cid path) None x1 = (Ok p2, x2)
      /\ exit_stdout p2 = data.

(** The session and file operations that discard their child's status. *)
Inductive LocalOp : Type :=
| OpCreateSession (self : LocalProcess) (session_id : str)
| OpDeleteSession (self : LocalProcess) (session_id : str)
| OpExecuteSessionCommand (self : LocalProcess) (session_id : str)
                          (req : Req) (var_async : bool)
| OpCreateFolder (self : LocalFS) (path permissions : str)
| OpDeleteFile (self : LocalFS) (path : str)
| OpSetFilePermissions (self : LocalFS) (path permissions : str).

Definition run_op {X} `{External X} (op : LocalOp) : M X unit :=
  match op with
  | OpCreateSession self sid => LocalProcess_create_session self sid
  | OpDeleteSession self sid => LocalProcess_delete_session self sid
  | OpExecuteSessionCommand self sid req a =>
    bind (LocalProcess_execute_session_command self sid req a)
         (fun _ => ret tt)
  | OpCreateFolder self path perms => LocalFS_create_folder self path perms
  | OpDeleteFile self path => LocalFS_delete_file self path
  | OpSetFilePermissions self path perms =>
    LocalFS_set_file_permissions self path perms
  end.

(** The commands an operation launches, in order. *)
Definition op_commands (op : LocalOp) : list (list str) :=
  match op with
  | OpCreateSession self sid =>
    [new_session_args (process_container_id self) sid]
  | OpDeleteSession self sid =>
    [kill_session_args (process_container_id self) sid]
  | OpExecuteSessionCommand self sid req _ =>
    [send_keys_args (process_container_id self) sid (req_command req)]
  | OpCreateFolder self path perms =>
    [mkdir_args (fs_container_id self) path;
     chmod_args (fs_container_id self) perms path]
  | OpDeleteFile self path => [rm_args (fs_container_id self) path]
  | OpSetFilePermissions self path perms =>
    [chmod_args (fs_container_id self) perms path]
  end.

(** The exit statuses of the commands when each of them is launched and
    runs to its end, together with the world they leave; [None] when one of
    them cannot be launched. *)
Fixpoint exit_statuses {X} `{External X} (cmds : list (list str)) (x : X)
    : option (list Z * X) :=
  match cmds with
  | [] => Some ([], x)
  | args :: rest =>
    match spawn args None x with
    | (Ok p, x') =>
      match exit_statuses rest x' with
      | Some (codes, x'') => Some (exit_status p :: codes, x'')
      | None => None
      end
    | (Raise _, _) => None
    end
  end.

Definition image_name : str := "kortix/suna:0.1".

(** The sandbox the first provisioning on a fresh host creates. *)
Definition first_sandbox : LocalSandbox := make_LocalSandbox 0 "c0ffee1".

(** The world after the first provisioning. *)
Definition running_world : World Host :=
  after _ensure_local_sandbox (local_world fresh_docker).

(** A host whose daemon has stopped after the sandbox was provisioned: the
    teardown command fails. *)
Definition stalled_world : World Host :=
  {| ext := host dead_docker (cloud_with true true STOPPED);
     trace := trace running_world;
     next_address := next_address running_world;
     _use_daytona := false;
     _compose_file := compose_path;
     _local_sandbox := Some first_sandbox |}.

(** The same process on a host from which the [docker] executable has gone:
    no command can be launched. *)
Definition unprovided_world : World Host :=
  {| ext := host (set_installed false (docker (ext running_world)))
                 (cloud_with true true STOPPED);
     trace := trace running_world;
     next_address := next_address running_world;
     _use_daytona := false;
     _compose_file := compose_path;
     _local_sandbox := Some first_sandbox |}.

Definition has_nul (s : str) : bool := existsb (N.eqb 0) s.

Definition quoted_quote : str := [squote; dquote; squote; dquote; squote].

(** A Docker host on which the sandbox container runs. *)
Definition serving (d : Docker) : Prop :=
  installed d = true /\ daemon d = true /\ up d = true.

(** The running world with a session [s1]. *)
Definition session_world : World Host :=
  after (LocalProcess_create_session (process first_sandbox) "s1")
        running_world.

(** A missing file and an empty file download alike. *)
Definition empty_file_world : World Host :=
  after (LocalFS_upload_file (fs first_sandbox) "/data" []) running_world.

(** The lifecycle operations a caller can invoke. *)
Inductive Op : Type :=
| GetOrStart (sandbox_id : str)
| CreateSandbox (password : str) (project_id : option str)
| DeleteSandbox (sandbox_id : str)
| StartSupervisord (sandbox : Handle).

Definition run_lifecycle {X} `{External X} (img : str) (o : Op)
    (w : World X) : World X :=
  match o with
  | GetOrStart sid => after (get_or_start_sandbox sid) w
  | CreateSandbox pw pid => after (create_sandbox img pw pid) w
  | DeleteSandbox sid => after (delete_sandbox sid) w
  | StartSupervisord h => after (start_supervisord_session h) w
  end.

(** Operations invoked one after the other during the life of the process. *)
Definition run_ops {X} `{External X} (img : str) (ops : list Op)
    (w : World X) : World X :=
  fold_left (fun w o => run_lifecycle img o w) ops w.

(** An operation that is handed a sandbox is handed one of the selected
    backend: a [LocalSandbox] does not exist in a process that selected the
    remote backend. *)
Definition remote_op (o : Op) : bool :=
  match o with
  | StartSupervisord (LocalH _) => false
  | _ => true
  end.

Definition is_remote (e : Event) : bool := negb (is_subprocess e).

(** [m], started with the selector equal to [b], leaves it equal to [b] and
    logs only events that satisfy [P]. *)
Definition routed {X A} (b : bool) (P : Event -> bool) (m : M X A) : Prop :=
  forall w, _use_daytona w = b ->
    _use_daytona (snd (m w)) = b
    /\ exists l, trace (snd (m w)) = trace w ++ l /\ forallb P l = true.

(** ** Session logs

    [LocalProcess.get_session_command_logs] runs its child in text mode: what
    the caller receives is the child's output after the text layer of
    [subprocess] (the locale's codec, strict, and newline translation), which
    is a parameter here; [None] stands for [UnicodeDecodeError]. *)

Section SessionLogs.
Context {X : Type} `{External X}.
Variable text_layer : bytes -> option str.

Definition capture_pane_args (cid sid : str) : list str :=
  ["docker" : str; "exec" : str; cid; "tmux" : str; "capture-pane" : str;
   "-t" : str; sid; "-p" : str; "-S" : str; "-" : str; "-E" : str; "-" : str].

Definition LocalProcess_get_session_command_logs (self : LocalProcess)
    (session_id : str) (command_id : option str) : M X str :=
  bind (call (Subprocess (capture_pane_args (process_container_id self)
                            session_id) None)
             (spawn (capture_pane_args (process_container_id self)
                       session_id) None))
       (fun p =>
          match text_layer (exit_stdout p), text_layer (exit_stderr p) with
          | Some out, Some _ => ret out
          | _, _ => raise UnicodeDecodeError
          end).
End SessionLogs.

(** ** A scripted world

    A world that answers the calls made to it from a list, in order: the
    test double for runs in which a particular call fails. *)

Inductive Answer : Type :=
| AProcess (r : result ProcessExit)
| ASandbox (r : result Sandbox)
| ADone (r : result unit).

Definition off_script {A} : result A := Raise (OSError (lit "off script")).

Definition next_process (s : list Answer) : result ProcessExit * list Answer :=
  match s with
  | AProcess r :: s' => (r, s')
  | _ => (off_script, s)
  end.

Definition next_sandbox (s : list Answer) : result Sandbox * list Answer :=
  match s with
  | ASandbox r :: s' => (r, s')
  | _ => (off_script, s)
  end.

Definition next_done (s : list Answer) : result unit * list Answer :=
  match s with
  | ADone r :: s' => (r, s')
  | _ => (off_script, s)
  end.

#[global] Instance Scripted_External : External (list Answer) := {
  spawn _ _ := next_process;
  daytona_get_current_sandbox _ := next_sandbox;
  daytona_start _ := next_done;
  daytona_create _ := next_sandbox;
  daytona_remove _ := next_done;
  remote_create_session _ _ := next_done;
  remote_execute_session_command _ _ _ := next_done }.

(** The module imported with ([remote = true]) or without a credential, in
    a world that follows [script]. *)
Definition scripted_world (remote : bool) (script : list Answer)
    : World (list Answer) :=
  module_init (if remote then environ_with "DAYTONA_API_KEY" "secret"
               else no_environ)
              compose_path script.

(** Scripts used below: a service that refuses, and a full restart. *)
Definition quota : exn := DaytonaError (lit "quota exceeded").

Definition restart_script : list Answer :=
  [ASandbox (Ok (sb1 STOPPED)); ADone (Ok tt); ASandbox (Ok (sb1 RUNNING));
   ADone (Ok tt); ADone (Ok tt)].

(** ** Further vocabulary *)

Definition is_create (e : Event) : bool :=
  match e with Create _ => true | _ => false end.

Definition is_remove (e : Event) : bool :=
  match e with Remove _ => true | _ => false end.

(** [d.get(key)] on a dictionary kept as an association list. *)
Fixpoint dict_get {V} (key : str) (d : list (str * V)) : option V :=
  match d with
  | [] => None
  | (k, v) :: d' => if bool_decide (k = key) then Some v else dict_get key d'
  end.

(** A string without white space at either end. *)
Definition trimmed (s : str) : Prop := lstrip s = s /\ rstrip s = s.

(** A local sandbox whose two interfaces are bound to its own container and
    whose identifier is usable. *)
Definition sandbox_ok (sb : LocalSandbox) : Prop :=
  process_container_id (process sb) = id sb
  /\ fs_container_id (fs sb) = id sb
  /\ id sb <> []
  /\ trimmed (id sb).

(** What the module remembers is an allocated, well-formed sandbox. *)
Definition memo_ok {X} (w : World X) : Prop :=
  forall sb, _local_sandbox w = Some sb ->
             address sb < next_address w /\ sandbox_ok sb.

(** The creation parameters [create_sandbox] hands to the service. *)
Definition sandbox_params (img password : str) (project_id : option str)
    : CreateSandboxParams :=
  {| image := img;
     public := true;
     labels := match project_id with
               | Some p => if truthy p then Some [(lit "id", p)] else None
               | None => None
               end;
     env_vars := sandbox_env_vars password;
     resources := [(lit "cpu", 2%Z); (lit "memory", 4%Z); (lit "disk", 5%Z)] |}.

(** The event is a [docker exec] into container [cid]. *)
Definition targets (cid : str) (e : Event) : bool :=
  match e with
  | Subprocess (a :: b :: c :: d :: _) _ =>
    is_lit "docker" a && is_lit "exec" b
    && (bool_decide (c = cid) || is_lit "-i" c && bool_decide (d = cid))
  | _ => false
  end.

(** The container an operation is bound to. *)
Definition op_container (op : LocalOp) : str :=
  match op with
  | OpCreateSession self _ => process_container_id self
  | OpDeleteSession self _ => process_container_id self
  | OpExecuteSessionCommand self _ _ _ => process_container_id self
  | OpCreateFolder self _ _ => fs_container_id self
  | OpDeleteFile self _ => fs_container_id self
  | OpSetFilePermissions self _ _ => fs_container_id self
  end.

(** The file operations, the two that carry data included. *)
Inductive FileOp : Type :=
| FUpload (path : str) (data : bytes)
| FDownload (path : str)
| FDelete (path : str)
| FCreateFolder (path permissions : str)
| FSetPermissions (path permissions : str).

Definition run_file_op {X} `{External X} (self : LocalFS) (o : FileOp)
    : M X (option bytes) :=
  match o with
  | FUpload p b => bind (LocalFS_upload_file self p b) (fun _ => ret None)
  | FDownload p => LocalFS_download_file self p
  | FDelete p => bind (LocalFS_delete_file self p) (fun _ => ret None)
  | FCreateFolder p m =>
    bind (LocalFS_create_folder self p m) (fun _ => ret None)
  | FSetPermissions p m =>
    bind (LocalFS_set_file_permissions self p m) (fun _ => ret None)
  end.

(** ** Examples *)

Example lit_docker : lit "docker" = [100; 111; 99; 107; 101; 114]%N.
Proof. reflexivity. Qed.

Example strip_example : strip (lit "  key ") = lit "key".
Proof. reflexivity. Qed.

Example str_of_int_8080 : str_of_int 8080 = lit "8080".
Proof. reflexivity. Qed.

Example str_of_int_neg : str_of_int (-5) = lit "-5".
Proof. reflexivity. Qed.

Example str_of_int_0 : str_of_int 0 = lit "0".
Proof. reflexivity. Qed.

Example shlex_quote_plain : shlex_quote (lit "/tmp/a.txt") = lit "/tmp/a.txt".
Proof. reflexivity. Qed.

Example shlex_quote_space : shlex_quote (lit "a b") = lit "'a b'".
Proof. reflexivity. Qed.

Example decode_ascii : decode (list_byte_of_string "abc") = Some (lit "abc").
Proof. reflexivity. Qed.

Example decode_invalid : decode [xff] = None.
Proof. reflexivity. Qed.

Example sh_word_quoted : sh_word (lit "'a b'") = Some (lit "a b").
Proof. reflexivity. Qed.

Example sh_word_apostrophe :
  sh_word (shlex_quote (lit "it's")) = Some (lit "it's").
Proof. reflexivity. Qed.

Example redirect_target_example :
  redirect_target (lit "cat > '/tmp/my file'") = Some (lit "/tmp/my file").
Proof. reflexivity. Qed.

Example local_world_is_local : _use_daytona (local_world fresh_docker) = false.
Proof. reflexivity. Qed.

Example remote_world_is_remote :
  _use_daytona (remote_world (cloud_with true true STOPPED)) = true.
Proof. reflexivity. Qed.

Example ensure_on_fresh_host :
  id <$> match answer _ensure_local_sandbox (local_world fresh_docker) with
         | Ok s => Some s | Raise _ => None end
  = Some (lit "c0ffee1").
Proof. vm_compute. reflexivity. Qed.

Example ensure_on_dead_host :
  answer _ensure_local_sandbox (local_world dead_docker)
  = Raise (CalledProcessError 1
      ["docker" : str; "compose" : str; "-f" : str; compose_path; "up" : str;
       "-d" : str]).
Proof. vm_compute. reflexivity. Qed.

(** ** Reasoning about runs *)

Lemma new_events_app {X} (w w' : World X) (l : list Event) :
  trace w' = trace w ++ l -> new_events w w' = l.
Proof.
  intros E. unfold new_events. rewrite E. apply drop_app_length.
Qed.

Section Steps.
Context {X : Type} `{External X}.

Lemma bind_ok {A B} (m : M X A) (k : A -> M X B) w a w' :
  m w = (Ok a, w') -> bind m k w = k a w'.
Proof. intros E. unfold bind. now rewrite E. Qed.

Lemma bind_raise {A B} (m : M X A) (k : A -> M X B) w e w' :
  m w = (Raise e, w') -> bind m k w = (Raise e, w').
Proof. intros E. unfold bind. now rewrite E. Qed.

(** A handler that re-raises what it caught changes nothing. *)
Lemma try_except_reraise {A} (m : M X A) w :
  try_except m (fun e => raise e) w = m w.
Proof. unfold try_except, raise. destruct (m w) as [[a|e] w']; reflexivity. Qed.

Lemma call_eq {A} (e : Event) (op : X -> result A * X) w r x :
  op (ext w) = (r, x) -> call e op w = (r, with_ext x e w).
Proof. intros E. unfold call. now rewrite E. Qed.

Lemma subprocess_run_unchecked args input capture w p x :
  spawn args input (ext w) = (Ok p, x) ->
  subprocess_run args input capture false w
  = (Ok {| returncode := exit_status p;
           stdout := if capture then Some (exit_stdout p) else None;
           stderr := if capture then Some (exit_stderr p) else None |},
     with_ext x (Subprocess args input) w).
Proof.
  intros E. unfold subprocess_run.
  rewrite (bind_ok _ _ _ _ _ (call_eq _ _ _ _ _ E)). reflexivity.
Qed.

Lemma subprocess_run_checked args input capture w p x :
  spawn args input (ext w) = (Ok p, x) ->
  exit_status p = 0%Z ->
  subprocess_run args input capture true w
  = (Ok {| returncode := exit_status p;
           stdout := if capture then Some (exit_stdout p) else None;
           stderr := if capture then Some (exit_stderr p) else None |},
     with_ext x (Subprocess args input) w).
Proof.
  intros E Z0. unfold subprocess_run.
  rewrite (bind_ok _ _ _ _ _ (call_eq _ _ _ _ _ E)), Z0. reflexivity.
Qed.

Lemma subprocess_check_output_ok args w p x :
  spawn args None (ext w) = (Ok p, x) ->
  exit_status p = 0%Z ->
  subprocess_check_output args w
  = (Ok (exit_stdout p), with_ext x (Subprocess args None) w).
Proof.
  intros E Z0. unfold subprocess_check_output.
  rewrite (bind_ok _ _ _ _ _ (call_eq _ _ _ _ _ E)), Z0. reflexivity.
Qed.
End Steps.

(** ** The remote backend: [get_or_start_sandbox] *)

Section GetOrStartRemote.
Context {X : Type} `{External X}.

Lemma needs_start_iff (sb : Sandbox) :
  needs_start sb = true
  <-> state (instance sb) = STOPPED \/ state (instance sb) = ARCHIVED.
Proof.
  unfold needs_start. rewrite orb_true_iff, !bool_decide_eq_true. tauto.
Qed.

Lemma start_supervisord_session_remote (sb : Sandbox) (w : World X) x1 x2 :
  _use_daytona w = true ->
  remote_create_session sb supervisord_session (ext w) = (Ok tt, x1) ->
  remote_execute_session_command sb supervisord_session
    supervisord_request x1 = (Ok tt, x2) ->
  start_supervisord_session (RemoteH sb) w
  = (Ok tt,
     with_ext x2 (ExecuteSessionCommand sb supervisord_session
                    supervisord_request)
       (with_ext x1 (CreateSession sb supervisord_session) w)).
Proof.
  intros U E1 E2. unfold start_supervisord_session.
  unfold bind at 1. unfold read. rewrite U. cbn [negb].
  rewrite try_except_reraise. cbn [process_create_session].
  rewrite (bind_ok _ _ _ _ _ (call_eq _ _ _ _ _ E1)).
  cbn [process_execute_session_command].
  apply call_eq. exact E2.
Qed.
End GetOrStartRemote.

Section GetOrStartTheorems.
Context {X : Type} `{External X}.

(** C2.  Remote backend, sandbox already running (neither stopped nor
    archived): [get_or_start_sandbox] makes the one fetch and nothing else (no
    start call, no supervisor session) and returns the fetched handle
    unchanged. *)
Theorem get_or_start_sandbox_running (sid : str) (w : World X)
    (sb : Sandbox) (x1 : X) :
  _use_daytona w = true ->
  daytona_get_current_sandbox sid (ext w) = (Ok sb, x1) ->
  state (instance sb) <> STOPPED ->
  state (instance sb) <> ARCHIVED ->
  get_or_start_sandbox sid w
  = (Ok (RemoteH sb), with_ext x1 (GetCurrentSandbox sid) w)
  /\ new_events w (after (get_or_start_sandbox sid) w) = [GetCurrentSandbox sid]
  /\ count is_start (new_events w (after (get_or_start_sandbox sid) w)) = 0
  /\ count is_create_session
       (new_events w (after (get_or_start_sandbox sid) w)) = 0
  /\ count is_execute (new_events w (after (get_or_start_sandbox sid) w)) = 0.
Proof.
  intros U G NS NA.
  assert (R : get_or_start_sandbox sid w
              = (Ok (RemoteH sb), with_ext x1 (GetCurrentSandbox sid) w)).
  { unfold get_or_start_sandbox. unfold bind at 1. unfold read.
    rewrite U. cbn [negb]. rewrite try_except_reraise.
    rewrite (bind_ok _ _ _ _ _ (call_eq _ _ _ _ _ G)).
    assert (N : needs_start sb = false).
    { apply not_true_is_false. rewrite needs_start_iff. tauto. }
    rewrite N. reflexivity. }
  split; [exact R|].
  unfold after. rewrite R. cbn [snd].
  rewrite (new_events_app w _ [GetCurrentSandbox sid]) by reflexivity.
  repeat split.
Qed.

Lemma trace_with_ext (x : X) (e : Event) (w : World X) :
  trace (with_ext x e w) = trace w ++ [e].
Proof. reflexivity. Qed.

Lemma start_supervisord_session_no_start (sb : Sandbox) (w : World X) :
  _use_daytona w = true ->
  exists l, trace (after (start_supervisord_session (RemoteH sb)) w)
            = trace w ++ l
            /\ count is_start l = 0.
Proof.
  intros U. unfold after, start_supervisord_session.
  unfold bind at 1. unfold read. rewrite U. cbn [negb].
  rewrite try_except_reraise. cbn [process_create_session].
  unfold bind, call.
  destruct (remote_create_session sb _ (ext w)) as [[[]|e] x1]; cbn.
  - unfold call. cbn.
    destruct (remote_execute_session_command _ _ _ x1) as [r x2]; cbn.
    rewrite <- app_assoc. eexists. split; [reflexivity|]. reflexivity.
  - eexists. split; [reflexivity|]. reflexivity.
Qed.

(** However the later calls fare, a stopped or archived sandbox is started
    once. *)
Lemma get_or_start_sandbox_start_once (sid : str) (w : World X)
    (sb : Sandbox) (x1 : X) :
  _use_daytona w = true ->
  daytona_get_current_sandbox sid (ext w) = (Ok sb, x1) ->
  needs_start sb = true ->
  count is_start (new_events w (after (get_or_start_sandbox sid) w)) = 1.
Proof.
  intros U G NS. unfold after, get_or_start_sandbox.
  unfold bind at 1. unfold read. rewrite U. cbn [negb].
  rewrite try_except_reraise.
  rewrite (bind_ok _ _ _ _ _ (call_eq _ _ _ _ _ G)). rewrite NS.
  set (w1 := with_ext x1 (GetCurrentSandbox sid) w).
  unfold bind at 1. rewrite try_except_reraise.
  unfold bind at 1. unfold call at 1.
  destruct (daytona_start sb (ext w1)) as [[[]|e] x2].
  - set (w2 := with_ext x2 (Start sb) w1).
    unfold bind at 1. unfold call at 1.
    destruct (daytona_get_current_sandbox sid (ext w2)) as [[sb'|e] x3].
    + set (w3 := with_ext x3 (GetCurrentSandbox sid) w2).
      destruct (start_supervisord_session_no_start sb' w3 U) as (l & T & C).
      unfold after in T. unfold bind at 1.
      destruct (start_supervisord_session (RemoteH sb') w3) as [[[]|e] w4];
        cbn [snd ret] in T |- *;
        rewrite (new_events_app w w4
                   ([GetCurrentSandbox sid; Start sb; GetCurrentSandbox sid]
                    ++ l))
          by (rewrite T; cbn; now rewrite <- !app_assoc);
        unfold count in *; rewrite List.filter_app, length_app, C; reflexivity.
    + cbn [snd].
      rewrite (new_events_app w _
                 [GetCurrentSandbox sid; Start sb; GetCurrentSandbox sid])
        by (cbn; now rewrite <- !app_assoc).
      reflexivity.
  - cbn [snd].
    rewrite (new_events_app w _ [GetCurrentSandbox sid; Start sb])
      by (cbn; now rewrite <- !app_assoc).
    reflexivity.
Qed.

End GetOrStartTheorems.

(** *** The remote theorems in the reference world *)

Lemma get_or_start_sandbox_running_witness :
  let w := remote_world (cloud_with true true RUNNING) in
  answer (get_or_start_sandbox "sb-1") w = Ok (RemoteH (sb1 RUNNING))
  /\ new_events w (after (get_or_start_sandbox "sb-1") w)
     = [GetCurrentSandbox "sb-1"].
Proof.
  intros w.
  edestruct (get_or_start_sandbox_running "sb-1" w (sb1 RUNNING))
    as (R & E & _).
  - reflexivity.
  - reflexivity.
  - discriminate.
  - discriminate.
  - split; [|exact E]. unfold answer. rewrite R. reflexivity.
Defined.



(** ** The local backend: the memoized sandbox *)

Section Ensure.
Context {X : Type} `{External X}.

Lemma ensure_memo (w : World X) (sb : LocalSandbox) :
  _local_sandbox w = Some sb -> _ensure_local_sandbox w = (Ok sb, w).
Proof.
  intros E. unfold _ensure_local_sandbox, bind, read. rewrite E. reflexivity.
Qed.

Lemma ensure_provisions (w : World X) (x : X) (text : str) :
  _local_sandbox w = None ->
  provisioning_succeeds w x text ->
  _ensure_local_sandbox w
  = (Ok (make_LocalSandbox (next_address w) (container_id_of text)),
     provisioned w x
       (make_LocalSandbox (next_address w) (container_id_of text))).
Proof.
  intros E (p1 & x1 & p2 & S1 & Z1 & S2 & Z2 & D).
  unfold _ensure_local_sandbox. unfold bind at 1. unfold read at 1.
  rewrite E. unfold bind at 1. unfold read at 1.
  erewrite bind_ok by (apply subprocess_run_checked; eassumption).
  erewrite bind_ok
    by (apply subprocess_check_output_ok; [exact S2 | exact Z2]).
  rewrite D. unfold provisioned, make_LocalSandbox, container_id_of.
  cbn. rewrite <- app_assoc. reflexivity.
Qed.

(** Whatever [_ensure_local_sandbox] returns is what the module remembers;
    the run added no event, or the two provisioning commands. *)
Lemma ensure_returns (w w' : World X) (sb : LocalSandbox) :
  _ensure_local_sandbox w = (Ok sb, w') ->
  _local_sandbox w' = Some sb
  /\ _use_daytona w' = _use_daytona w
  /\ _compose_file w' = _compose_file w
  /\ (trace w' = trace w
      \/ trace w' = trace w
                    ++ [Subprocess (up_args (_compose_file w)) None;
                        Subprocess (ps_args (_compose_file w)) None]).
Proof.
  destruct (_local_sandbox w) as [sb0|] eqn:E.
  - rewrite (ensure_memo w sb0 E). intros [= <- <-]. auto.
  - intros R.
    unfold _ensure_local_sandbox, subprocess_run, subprocess_check_output,
      bind, read, call, raise, ret, new_LocalSandbox, set_local_sandbox in R.
    rewrite E in R.
    repeat case_match; simplify_eq; cbn;
      rewrite <- app_assoc; auto.
Qed.
End Ensure.

Section EnsureTheorems.
Context {X : Type} `{External X}.
Variable img : str.

Lemma get_or_start_sandbox_local (sid : str) (w : World X) :
  _use_daytona w = false ->
  get_or_start_sandbox sid w
  = bind _ensure_local_sandbox (fun s => ret (LocalH s)) w.
Proof.
  intros U. unfold get_or_start_sandbox. unfold bind at 1. unfold read.
  rewrite U. reflexivity.
Qed.

Lemma create_sandbox_local (pw : str) (pid : option str) (w : World X) :
  _use_daytona w = false ->
  create_sandbox img pw pid w
  = bind _ensure_local_sandbox (fun s => ret (LocalH s)) w.
Proof.
  intros U. unfold create_sandbox. unfold bind at 1. unfold read.
  rewrite U. reflexivity.
Qed.

Lemma run_call_local (c : EnsureCall) (w : World X) :
  _use_daytona w = false ->
  run_call img c w = bind _ensure_local_sandbox (fun s => ret (LocalH s)) w.
Proof.
  intros U. destruct c; cbn [run_call].
  - reflexivity.
  - now apply get_or_start_sandbox_local.
  - now apply create_sandbox_local.
Qed.

Lemma run_call_returns (c : EnsureCall) (w w1 : World X) (h : Handle) :
  _use_daytona w = false ->
  run_call img c w = (Ok h, w1) ->
  exists sb, h = LocalH sb /\ _ensure_local_sandbox w = (Ok sb, w1).
Proof.
  intros U. rewrite (run_call_local c w U). unfold bind, ret.
  destruct (_ensure_local_sandbox w) as [[sb|e] w']; [|discriminate].
  intros [= <- <-]. eauto.
Qed.

Lemma run_calls_memo (cs : list EnsureCall) (w : World X)
    (sb : LocalSandbox) :
  _use_daytona w = false ->
  _local_sandbox w = Some sb ->
  run_calls img cs w = (map (fun _ => Ok (LocalH sb)) cs, w).
Proof.
  intros U E. induction cs as [|c cs IH]; cbn [run_calls map].
  - reflexivity.
  - rewrite (run_call_local c w U).
    rewrite (bind_ok _ _ _ _ _ (ensure_memo w sb E)). cbn [ret].
    rewrite IH. reflexivity.
Qed.

Lemma count_up_ps (f : str) :
  count (is_up f) [Subprocess (up_args f) None; Subprocess (ps_args f) None] = 1
  /\ count (is_ps f)
       [Subprocess (up_args f) None; Subprocess (ps_args f) None] = 1.
Proof.
  unfold count. cbn [List.filter is_up is_ps].
  rewrite (bool_decide_eq_true_2 (up_args f = up_args f)) by reflexivity.
  rewrite (bool_decide_eq_true_2 (ps_args f = ps_args f)) by reflexivity.
  rewrite (bool_decide_eq_false_2 (ps_args f = up_args f))
    by (unfold up_args, ps_args; congruence).
  rewrite (bool_decide_eq_false_2 (up_args f = ps_args f))
    by (unfold up_args, ps_args; congruence).
  split; reflexivity.
Qed.

(** C4.  Local backend: once a call of the ensure operation (directly, or
    through [get_or_start_sandbox] or [create_sandbox]) has returned a
    sandbox, every later call returns that same object, with the same
    identifier, and nothing further happens: over the whole sequence each of
    the two provisioning commands has run at most once. *)
Theorem ensure_local_sandbox_memoized (c : EnsureCall) (cs : list EnsureCall)
    (w w1 : World X) (sb : LocalSandbox) :
  _use_daytona w = false ->
  run_call img c w = (Ok (LocalH sb), w1) ->
  run_calls img cs w1 = (map (fun _ => Ok (LocalH sb)) cs, w1)
  /\ Forall (fun r => exists s, r = Ok (LocalH s)
                               /\ address s = address sb /\ id s = id sb)
            (fst (run_calls img (c :: cs) w))
  /\ count (is_up (_compose_file w))
       (new_events w (snd (run_calls img (c :: cs) w))) <= 1
  /\ count (is_ps (_compose_file w))
       (new_events w (snd (run_calls img (c :: cs) w))) <= 1.
Proof.
  intros U R.
  destruct (run_call_returns c w w1 _ U R) as (sb0 & [= <-] & En).
  destruct (ensure_returns w w1 sb En) as (Memo & U1 & _ & T).
  rewrite U in U1.
  assert (Rs := run_calls_memo cs w1 sb U1 Memo).
  split; [exact Rs|].
  cbn [run_calls]. rewrite R, Rs. cbn [fst snd].
  split.
  - constructor; [eauto|]. apply List.Forall_forall. intros r.
    rewrite in_map_iff. intros (? & <- & _). eauto.
  - destruct T as [T|T].
    + rewrite (new_events_app w w1 []) by (now rewrite app_nil_r).
      cbn. lia.
    + rewrite (new_events_app w w1 _ T).
      destruct (count_up_ps (_compose_file w)) as [-> ->]. lia.
Qed.
End EnsureTheorems.

Section DeleteAndCreate.
Context {X : Type} `{External X}.
Variable img : str.

Lemma heap_ok_init (environ : str -> option str) (f : str) (x : X) :
  heap_ok (module_init environ f x).
Proof. intros sb. discriminate. Qed.

Lemma heap_ok_ensure (w : World X) :
  heap_ok w -> heap_ok (after _ensure_local_sandbox w).
Proof.
  intros Hw. unfold after.
  destruct (_local_sandbox w) as [sb0|] eqn:E.
  - rewrite (ensure_memo w sb0 E). exact Hw.
  - unfold _ensure_local_sandbox, subprocess_run, subprocess_check_output,
      bind, read, call, raise, ret, new_LocalSandbox, set_local_sandbox.
    rewrite E.
    repeat case_match; simplify_eq; cbn; intros sb Hs; cbn in Hs;
      try congruence; injection Hs as <-; cbn; lia.
Qed.

Lemma delete_sandbox_local (sid : str) (w : World X) (p : ProcessExit)
    (x1 : X) :
  _use_daytona w = false ->
  spawn (down_args (_compose_file w)) None (ext w) = (Ok p, x1) ->
  delete_sandbox sid w
  = (Ok true,
     {| ext := x1;
        trace := trace w ++ [Subprocess (down_args (_compose_file w)) None];
        next_address := next_address w;
        _use_daytona := false;
        _compose_file := _compose_file w;
        _local_sandbox := None |}).
Proof.
  intros U S. unfold delete_sandbox. unfold bind at 1. unfold read at 1.
  rewrite U. cbn [negb]. unfold bind at 1. unfold read at 1.
  erewrite bind_ok by (apply subprocess_run_unchecked; exact S).
  cbn. rewrite U. reflexivity.
Qed.

(** With nothing remembered, [_ensure_local_sandbox] starts by bringing the
    compose project up. *)
Lemma ensure_reprovisions (w : World X) :
  _local_sandbox w = None ->
  exists rest,
    new_events w (after _ensure_local_sandbox w)
    = Subprocess (up_args (_compose_file w)) None :: rest.
Proof.
  intros E. unfold after.
  unfold _ensure_local_sandbox, subprocess_run, subprocess_check_output,
    bind, read, call, raise, ret, new_LocalSandbox, set_local_sandbox.
  rewrite E. fold (up_args (_compose_file w)).
  repeat case_match; simplify_eq; cbn;
    match goal with
    | |- exists rest, new_events w ?w' = _ :: rest =>
      eexists; apply new_events_app; cbn; rewrite <- ?app_assoc; reflexivity
    end.
Qed.

(** When the teardown command cannot be launched, [delete_sandbox] raises
    what [subprocess.run] raised and the sandbox stays remembered. *)
Lemma delete_sandbox_local_unlaunched (sid : str) (w : World X) (e : exn)
    (x1 : X) :
  _use_daytona w = false ->
  spawn (down_args (_compose_file w)) None (ext w) = (Raise e, x1) ->
  delete_sandbox sid w
  = (Raise e,
     with_ext x1 (Subprocess (down_args (_compose_file w)) None) w).
Proof.
  intros U S. unfold delete_sandbox. unfold bind at 1. unfold read at 1.
  rewrite U. cbn [negb]. unfold bind at 1. unfold read at 1.
  fold (down_args (_compose_file w)).
  unfold subprocess_run, bind, call. rewrite S. reflexivity.
Qed.

(** C5 (amended).  Local backend.  When the teardown command is launched,
    whatever exit status it reports, [delete_sandbox] returns [True] and
    forgets the sandbox; the next ensure call then runs the provisioning
    again: it starts with the compose [up] command and, when that and the
    container lookup succeed, it returns a newly allocated sandbox whose
    identifier comes from the new lookup.  When the command cannot be
    launched, [delete_sandbox] raises the launch error, the sandbox stays
    remembered, and the next ensure call returns that same sandbox without
    running anything. *)
Theorem delete_sandbox_local_clears (sid : str) (w : World X)
    (r : result ProcessExit) (x1 : X) :
  _use_daytona w = false ->
  heap_ok w ->
  spawn (down_args (_compose_file w)) None (ext w) = (r, x1) ->
  let w1 := after (delete_sandbox sid) w in
  new_events w w1 = [Subprocess (down_args (_compose_file w)) None]
  /\ match r with
     | Ok _ =>
       answer (delete_sandbox sid) w = Ok true
       /\ _local_sandbox w1 = None
       /\ (exists rest,
             new_events w1 (after _ensure_local_sandbox w1)
             = Subprocess (up_args (_compose_file w)) None :: rest)
       /\ forall (x : X) (text : str),
            provisioning_succeeds w1 x text ->
            exists sb',
              answer _ensure_local_sandbox w1 = Ok sb'
              /\ id sb' = container_id_of text
              /\ new_events w1 (after _ensure_local_sandbox w1)
                 = [Subprocess (up_args (_compose_file w)) None;
                    Subprocess (ps_args (_compose_file w)) None]
              /\ _local_sandbox (after _ensure_local_sandbox w1) = Some sb'
              /\ forall old, _local_sandbox w = Some old ->
                             address sb' <> address old
     | Raise e =>
       answer (delete_sandbox sid) w = Raise e
       /\ _local_sandbox w1 = _local_sandbox w
       /\ forall old, _local_sandbox w = Some old ->
                      _ensure_local_sandbox w1 = (Ok old, w1)
     end.
Proof.
  intros U Hw S w1. subst w1. unfold after.
  destruct r as [p|e].
  - unfold answer at 1.
    rewrite (delete_sandbox_local sid w p x1 U S). cbn [fst snd].
    set (w1 := {| ext := x1; trace := _; _local_sandbox := None |}).
    split; [apply new_events_app; reflexivity|].
    split; [reflexivity|]. split; [reflexivity|].
    split; [exact (ensure_reprovisions w1 eq_refl)|].
    intros x text P. unfold answer.
    rewrite (ensure_provisions w1 x text eq_refl P). cbn [fst snd].
    eexists. split; [reflexivity|]. split; [reflexivity|].
    split; [apply new_events_app; reflexivity|].
    split; [reflexivity|].
    intros old E. specialize (Hw old E). cbn. lia.
  - unfold answer.
    rewrite (delete_sandbox_local_unlaunched sid w e x1 U S). cbn [fst snd].
    split; [apply new_events_app; reflexivity|].
    split; [reflexivity|]. split; [reflexivity|].
    intros old E. now apply ensure_memo.
Qed.

(** C9.  Local backend: when a sandbox is already remembered or the
    provisioning commands succeed, [create_sandbox] with any password
    returns a handle, and the preview link of that handle for a port is
    [http://localhost:] followed by the port in decimal. *)
Theorem create_sandbox_local_preview_link (pw : str) (pid : option str)
    (w : World X) (x : X) (text : str) :
  _use_daytona w = false ->
  is_Some (_local_sandbox w) \/ provisioning_succeeds w x text ->
  exists sb,
    answer (create_sandbox img pw pid) w = Ok (LocalH sb)
    /\ (forall port : Z,
          get_preview_link sb port = lit "http://localhost:" ++ str_of_int port)
    /\ get_preview_link sb 8080 = lit "http://localhost:8080".
Proof.
  intros U P. unfold answer. rewrite (create_sandbox_local img pw pid w U).
  destruct (_local_sandbox w) as [sb0|] eqn:E.
  - exists sb0. rewrite (bind_ok _ _ _ _ _ (ensure_memo w sb0 E)).
    repeat split.
  - destruct P as [[sb0 [=]]|P].
    eexists. rewrite (bind_ok _ _ _ _ _ (ensure_provisions w x text E P)).
    repeat split.
Qed.
End DeleteAndCreate.

(** ** The local backend: sessions and files *)

Section LocalOperations.
Context {X : Type} `{External X}.

(** C7.  Whatever the session, the command and the async flag, and whatever
    exit status the key injection reports, the handle returned by the local
    [execute_session_command] has exit code 0 (and the command as its
    identifier). *)
Theorem execute_session_command_exit_code_zero (self : LocalProcess)
    (sid : str) (req : Req) (var_async : bool) (w : World X)
    (p : ProcessExit) (x1 : X) :
  spawn (send_keys_args (process_container_id self) sid (req_command req))
        None (ext w) = (Ok p, x1) ->
  exists r,
    answer (LocalProcess_execute_session_command self sid req var_async) w
    = Ok r
    /\ exit_code r = 0%Z
    /\ cmd_id r = req_command req.
Proof.
  intros S. unfold answer, LocalProcess_execute_session_command.
  erewrite bind_ok by (apply subprocess_run_unchecked; exact S).
  eexists. repeat split.
Qed.

(** C8.  When the child processes of a local session or file operation are
    launched and exit, with whatever statuses, zero or not, the operation
    returns normally: it raises nothing, logs exactly its commands and
    leaves the module state alone. *)
Theorem local_operations_swallow_failures (op : LocalOp) (w : World X)
    (codes : list Z) (x' : X) :
  exit_statuses (op_commands op) (ext w) = Some (codes, x') ->
  run_op op w
  = (Ok tt,
     {| ext := x';
        trace := trace w
                 ++ map (fun args => Subprocess args None) (op_commands op);
        next_address := next_address w;
        _use_daytona := _use_daytona w;
        _compose_file := _compose_file w;
        _local_sandbox := _local_sandbox w |}).
Proof.
  destruct op; cbn [op_commands exit_statuses run_op];
    unfold LocalProcess_create_session, LocalProcess_delete_session,
      LocalProcess_execute_session_command, LocalFS_create_folder,
      LocalFS_delete_file, LocalFS_set_file_permissions;
    intros S; repeat case_match; simplify_eq;
    unfold bind, subprocess_run, call, ret, bind;
    repeat match goal with
           | Hs : spawn _ _ _ = _ |- _ =>
             unfold new_session_args, kill_session_args, send_keys_args,
               mkdir_args, chmod_args, rm_args in Hs;
             cbn; rewrite Hs; clear Hs
           end;
    unfold with_ext; cbn; rewrite <- ?app_assoc; reflexivity.
Qed.

(** C10.  [download_file] returns what [cat] printed and nothing else: when
    the read fails (non-zero status, nothing printed, as for a missing file)
    it returns the empty byte string without raising, which is also what it
    returns for an existing empty file. *)
Theorem download_file_no_error_channel (self : LocalFS) (path : str)
    (w : World X) (p : ProcessExit) (x1 : X) :
  spawn (cat_args (fs_container_id self) path) None (ext w) = (Ok p, x1) ->
  exit_status p <> 0%Z ->
  exit_stdout p = [] ->
  answer (LocalFS_download_file self path) w = Ok (Some [])
  /\ forall (w2 : World X) (p2 : ProcessExit) (x2 : X),
       spawn (cat_args (fs_container_id self) path) None (ext w2)
       = (Ok p2, x2) ->
       exit_status p2 = 0%Z ->
       exit_stdout p2 = [] ->
       answer (LocalFS_download_file self path) w2
       = answer (LocalFS_download_file self path) w.
Proof.
  intros S _ Out.
  assert (D : forall w' p' x', spawn (cat_args (fs_container_id self) path)
                                  None (ext w') = (Ok p', x') ->
              answer (LocalFS_download_file self path) w'
              = Ok (Some (exit_stdout p'))).
  { intros w' p' x' S'. unfold answer, LocalFS_download_file.
    erewrite bind_ok by (apply subprocess_run_unchecked; exact S').
    reflexivity. }
  split.
  - rewrite (D w p x1 S), Out. reflexivity.
  - intros w2 p2 x2 S2 _ Out2.
    rewrite (D w p x1 S), (D w2 p2 x2 S2), Out, Out2. reflexivity.
Qed.
End LocalOperations.

(** ** The local theorems in the reference world *)

Example running_world_sandbox :
  answer _ensure_local_sandbox (local_world fresh_docker) = Ok first_sandbox.
Proof. vm_compute. reflexivity. Qed.

Lemma ensure_local_sandbox_memoized_witness :
  let w := local_world fresh_docker in
  let cs := [Direct; ViaGetOrStart "sb-7"; ViaCreate "pw" (Some (lit "p1"))] in
  run_call image_name (ViaCreate "pw" None) w
  = (Ok (LocalH first_sandbox), running_world)
  /\ run_calls image_name cs running_world
     = (map (fun _ => Ok (LocalH first_sandbox)) cs, running_world)
  /\ count (is_up compose_path)
       (new_events w
          (snd (run_calls image_name (ViaCreate "pw" None :: cs) w))) <= 1.
Proof.
  intros w cs.
  assert (R : run_call image_name (ViaCreate "pw" None) w
              = (Ok (LocalH first_sandbox), running_world))
    by (vm_compute; reflexivity).
  split; [exact R|].
  destruct (ensure_local_sandbox_memoized image_name (ViaCreate "pw" None)
              cs w running_world first_sandbox eq_refl R)
    as (A & _ & C & _).
  split; [exact A | exact C].
Defined.

Lemma delete_sandbox_local_clears_witness :
  exit_status (failed 1 "Cannot connect to the Docker daemon") <> 0%Z
  /\ answer (delete_sandbox "sb-1") stalled_world = Ok true
  /\ _local_sandbox (after (delete_sandbox "sb-1") stalled_world) = None
  /\ answer (delete_sandbox "sb-1") running_world = Ok true
  /\ (exists sb',
        answer _ensure_local_sandbox
          (after (delete_sandbox "sb-1") running_world) = Ok sb'
        /\ id sb' = lit "c0ffee2"
        /\ address sb' <> address first_sandbox).
Proof.
  split; [discriminate|].
  destruct (delete_sandbox_local_clears "sb-1" stalled_world
              (Ok (failed 1 "Cannot connect to the Docker daemon"))
              (ext stalled_world))
    as (_ & A & B & _).
  { reflexivity. }
  { intros sb [= <-]. vm_compute. lia. }
  { vm_compute. reflexivity. }
  split; [exact A|]. split; [exact B|].
  destruct (delete_sandbox_local_clears "sb-1" running_world
              (Ok (exited 0 []))
              (ext (after (delete_sandbox "sb-1") running_world)))
    as (_ & A' & _ & _ & F).
  { reflexivity. }
  { intros sb [= <-]. vm_compute. lia. }
  { vm_compute. reflexivity. }
  split; [exact A'|].
  destruct (F (ext (after _ensure_local_sandbox
                      (after (delete_sandbox "sb-1") running_world)))
              (lit "c0ffee2" ++ [10%N]))
    as (sb' & E & I & _ & _ & Fresh).
  { eexists _, _, _. repeat split; vm_compute; reflexivity. }
  exists sb'. split; [exact E|]. split; [exact I|].
  apply Fresh. reflexivity.
Defined.

(** C5 as stated fails.  On a host without the [docker] executable the
    teardown command cannot be launched: [delete_sandbox] raises, the
    sandbox stays remembered, and the next ensure call returns the stale
    sandbox instead of provisioning a new one. *)
Lemma delete_sandbox_local_not_cleared :
  let w1 := after (delete_sandbox "sb-1") unprovided_world in
  _use_daytona unprovided_world = false
  /\ answer (delete_sandbox "sb-1") unprovided_world
     = Raise (OSError (lit "No such file or directory"))
  /\ _local_sandbox w1 = Some first_sandbox
  /\ answer _ensure_local_sandbox w1 = Ok first_sandbox
  /\ new_events w1 (after _ensure_local_sandbox w1) = [].
Proof. cbv zeta. repeat split; vm_compute; reflexivity. Qed.

Lemma create_sandbox_local_preview_link_witness :
  exists sb,
    answer (create_sandbox image_name "pw" None) (local_world fresh_docker)
    = Ok (LocalH sb)
    /\ get_preview_link sb 8080 = lit "http://localhost:8080".
Proof.
  destruct (create_sandbox_local_preview_link image_name "pw" None
              (local_world fresh_docker) (ext running_world)
              (lit "c0ffee1" ++ [10%N]))
    as (sb & A & _ & L).
  - reflexivity.
  - right. eexists _, _, _. repeat split; vm_compute; reflexivity.
  - exists sb. split; [exact A | exact L].
Defined.

(** ** Quoting: what [shlex.quote] writes, the shell reads back *)

Lemma shlex_safe_not_quote (c : N) :
  shlex_safe c = true -> (c =? squote)%N = false /\ (c =? dquote)%N = false.
Proof.
  intros S. split.
  - destruct (N.eqb_spec c squote) as [->|]; [discriminate S | reflexivity].
  - destruct (N.eqb_spec c dquote) as [->|]; [discriminate S | reflexivity].
Qed.

Lemma sh_scan_safe (s : str) :
  forallb shlex_safe s = true -> sh_scan Bare s = Some s.
Proof.
  induction s as [|c s IH]; cbn [forallb sh_scan]; [reflexivity|].
  intros [S R]%andb_true_iff.
  destruct (shlex_safe_not_quote c S) as [-> ->].
  rewrite S, (IH R). reflexivity.
Qed.

Lemma sh_scan_single (s rest : str) :
  sh_scan Single (replace_char squote quoted_quote s ++ squote :: rest)
  = (fun t => s ++ t) <$> sh_scan Bare rest.
Proof.
  induction s as [|c s IH].
  - cbn. destruct (sh_scan Bare rest); reflexivity.
  - unfold replace_char. cbn [flat_map].
    destruct (N.eqb_spec c squote) as [->|Hc].
    + fold (replace_char squote quoted_quote s).
      rewrite <- app_assoc.
      change (sh_scan Single (quoted_quote ++ ?t))
        with (cons squote <$> sh_scan Single t).
      rewrite IH. destruct (sh_scan Bare rest); reflexivity.
    + fold (replace_char squote quoted_quote s).
      cbn [app sh_scan].
      apply N.eqb_neq in Hc. rewrite Hc, IH.
      destruct (sh_scan Bare rest); reflexivity.
Qed.

(** The shell reads a quoted path back as the path. *)
Lemma sh_word_shlex_quote (p : str) : sh_word (shlex_quote p) = Some p.
Proof.
  unfold sh_word, shlex_quote. destruct p as [|c p]; [reflexivity|].
  destruct (forallb shlex_safe (c :: p)) eqn:S.
  - now apply sh_scan_safe.
  - cbn [app sh_scan]. change (squote =? squote)%N with true. cbn match.
    fold quoted_quote. rewrite sh_scan_single. cbn.
    now rewrite app_nil_r.
Qed.

Lemma strip_prefix_app (p s : str) : strip_prefix p (p ++ s) = Some s.
Proof.
  induction p as [|a p IH]; cbn; [now destruct s|].
  now rewrite N.eqb_refl.
Qed.

Lemma redirect_target_upload (p : str) :
  redirect_target (lit "cat > " ++ shlex_quote p) = Some p.
Proof.
  unfold redirect_target. rewrite strip_prefix_app. apply sh_word_shlex_quote.
Qed.

Lemma has_nul_app (a b : str) : has_nul (a ++ b) = has_nul a || has_nul b.
Proof. apply existsb_app. Qed.

Lemma has_nul_replace (s : str) :
  has_nul (replace_char squote quoted_quote s) = has_nul s.
Proof.
  induction s as [|c s IH]; [reflexivity|].
  unfold replace_char. cbn [flat_map].
  fold (replace_char squote quoted_quote s).
  rewrite has_nul_app, IH. cbn [has_nul existsb].
  destruct (N.eqb_spec c squote) as [->|]; cbn; [reflexivity|].
  now rewrite orb_false_r.
Qed.

Lemma has_nul_shlex_quote (p : str) :
  has_nul p = false -> has_nul (shlex_quote p) = false.
Proof.
  intros N. unfold shlex_quote. destruct p as [|c p]; [reflexivity|].
  destruct (forallb shlex_safe (c :: p)); [exact N|].
  fold quoted_quote.
  rewrite has_nul_app, has_nul_app, has_nul_replace, N. reflexivity.
Qed.

Lemma lit_String (c : ascii) (s : string) :
  lit (String c s) = Byte.to_N (byte_of_ascii c) :: lit s.
Proof. reflexivity. Qed.

Lemma has_nul_uint (d : Decimal.uint) :
  has_nul (lit (NilEmpty.string_of_uint d)) = false.
Proof.
  induction d; cbn [NilEmpty.string_of_uint]; [reflexivity| ..];
    rewrite lit_String; cbn [has_nul existsb]; exact IHd.
Qed.

Lemma has_nul_str_of_int (n : Z) : has_nul (str_of_int n) = false.
Proof.
  unfold str_of_int, NilZero.string_of_int, NilZero.string_of_uint.
  destruct (Z.to_int n) as [d|d].
  - destruct d; try reflexivity; apply has_nul_uint.
  - rewrite lit_String. cbn [has_nul existsb].
    destruct d; try reflexivity; apply has_nul_uint.
Qed.

Lemma has_nul_container_name (d : Docker) : has_nul (container_name d) = false.
Proof.
  unfold container_name, container_of_boot.
  rewrite has_nul_app, has_nul_str_of_int. reflexivity.
Qed.

Lemma container_name_not_option (d : Docker) :
  is_lit "-i" (container_name d) = false.
Proof.
  apply bool_decide_eq_false_2. intros E. vm_compute in E. discriminate E.
Qed.

(** *** What Python accepts as an argument *)

Lemma lone_surrogate_bytes (l : list byte) :
  existsb lone_surrogate (map Byte.to_N l) = false.
Proof.
  induction l as [|b l IH]; [reflexivity|]. cbn [map existsb]. rewrite IH.
  pose proof (Byte.to_N_bounded b) as B. unfold lone_surrogate.
  destruct (N.leb_spec 55296 (Byte.to_N b)); [lia | reflexivity].
Qed.

Lemma arg_error_container_name (d : Docker) :
  arg_error (container_name d) = None.
Proof.
  unfold arg_error. fold (has_nul (container_name d)).
  rewrite has_nul_container_name.
  unfold container_name, container_of_boot, str_of_int, lit.
  now rewrite existsb_app, !lone_surrogate_bytes.
Qed.

(** The characters of a script are those of the word it denotes, and quotes. *)
Lemma sh_scan_chars (bad : N -> bool) :
  bad squote = false -> bad dquote = false ->
  forall (s : str) (q : Quoting) (p : str),
    sh_scan q s = Some p -> existsb bad s = existsb bad p.
Proof.
  intros Hs Hd. induction s as [|c r IH]; intros q p E; cbn [sh_scan] in E.
  - destruct q; simplify_eq; reflexivity.
  - cbn [existsb]. destruct q.
    + destruct (N.eqb_spec c squote) as [->|_];
        [rewrite Hs; exact (IH _ _ E)|].
      destruct (N.eqb_spec c dquote) as [->|_];
        [rewrite Hd; exact (IH _ _ E)|].
      destruct (shlex_safe c); [|discriminate].
      destruct (sh_scan Bare r) as [p'|] eqn:R; cbn in E; simplify_eq.
      cbn [existsb]. f_equal. exact (IH _ _ R).
    + destruct (N.eqb_spec c squote) as [->|_];
        [rewrite Hs; exact (IH _ _ E)|].
      destruct (sh_scan Single r) as [p'|] eqn:R; cbn in E; simplify_eq.
      cbn [existsb]. f_equal. exact (IH _ _ R).
    + destruct (N.eqb_spec c dquote) as [->|_];
        [rewrite Hd; exact (IH _ _ E)|].
      destruct (sh_special c); [discriminate|].
      destruct (sh_scan Double r) as [p'|] eqn:R; cbn in E; simplify_eq.
      cbn [existsb]. f_equal. exact (IH _ _ R).
Qed.

Lemma strip_prefix_inv (p s w : str) :
  strip_prefix p s = Some w -> s = p ++ w.
Proof.
  revert s. induction p as [|a p IH]; intros s E; cbn in E.
  - now simplify_eq.
  - destruct s as [|b s]; [discriminate|].
    destruct (N.eqb_spec a b) as [->|]; [|discriminate].
    cbn. f_equal. exact (IH _ E).
Qed.

(** A script that reads as [cat > path] can be passed to a child exactly
    when the path can. *)
Lemma arg_error_script (script path : str) :
  redirect_target script = Some path ->
  arg_error path = None ->
  arg_error script = None.
Proof.
  unfold redirect_target.
  destruct (strip_prefix (lit "cat > ") script) as [w|] eqn:P; [|discriminate].
  intros W A. apply strip_prefix_inv in P. subst script.
  unfold arg_error in *. rewrite !existsb_app.
  rewrite (sh_scan_chars lone_surrogate eq_refl eq_refl w Bare path W).
  rewrite (sh_scan_chars (N.eqb 0) eq_refl eq_refl w Bare path W).
  change (existsb lone_surrogate (lit "cat > ")) with false.
  change (existsb (N.eqb 0) (lit "cat > ")) with false.
  exact A.
Qed.

(** ** Files in the reference world *)

(** Evaluate the comparisons between literals that a goal contains. *)
Ltac eval_lits :=
  repeat match goal with
         | |- context [is_lit ?s (lit ?t)] =>
           let v := eval vm_compute in (is_lit s (lit t)) in
           change (is_lit s (lit t)) with v
         | |- context [has_nul (lit ?t)] =>
           let v := eval vm_compute in (has_nul (lit t)) in
           change (has_nul (lit t)) with v
         | |- context [arg_error (lit ?t)] =>
           let v := eval vm_compute in (arg_error (lit t)) in
           change (arg_error (lit t)) with v
         end.

Lemma docker_spawn_exec_i (d : Docker) (cmd : list str) (input : option bytes) :
  serving d ->
  args_error cmd = None ->
  docker_spawn
    (lit "docker" :: lit "exec" :: lit "-i" :: container_name d :: cmd)
    input d
  = (let '(p, d') := in_container cmd input d in (Ok p, d')).
Proof.
  intros (I & D & U) N. unfold docker_spawn. cbn [args_error]. eval_lits.
  rewrite arg_error_container_name, N. eval_lits.
  cbn [orb andb]. rewrite I. unfold docker_cli. rewrite D. cbn [negb].
  eval_lits. cbn [andb]. rewrite U, bool_decide_eq_true_2 by reflexivity.
  reflexivity.
Qed.

Lemma docker_spawn_exec (d : Docker) (c0 : string) (cmd : list str)
    (input : option bytes) :
  serving d ->
  arg_error (lit c0) = None ->
  args_error cmd = None ->
  docker_spawn
    (lit "docker" :: lit "exec" :: container_name d :: lit c0 :: cmd)
    input d
  = (let '(p, d') := in_container (lit c0 :: cmd) input d in (Ok p, d')).
Proof.
  intros (I & D & U) N0 N. unfold docker_spawn. cbn [args_error].
  rewrite N0, arg_error_container_name, N. eval_lits.
  cbn [orb andb]. rewrite I. unfold docker_cli. rewrite D. cbn [negb].
  eval_lits. cbn [andb]. rewrite container_name_not_option.
  rewrite U, bool_decide_eq_true_2 by reflexivity.
  reflexivity.
Qed.

Lemma in_container_script (d : Docker) (script path : str) (data : bytes) :
  redirect_target script = Some path ->
  is_special d path = false ->
  can_write d path = true ->
  in_container ["bash" : str; "-c" : str; script] (Some data) d
  = (exited 0 [], set_fs (<[path := data]> (files d)) (dirs d) d).
Proof.
  intros T Sp W. unfold in_container. eval_lits. cbn [andb].
  rewrite T, Sp, W. reflexivity.
Qed.

Lemma in_container_cat (d : Docker) (path : str) (data : bytes) :
  begins_with_dash path = false ->
  special d !! path = None ->
  files d !! path = Some data ->
  in_container ["cat" : str; path] None d = (exited 0 data, d).
Proof.
  intros B Sp F. unfold in_container. eval_lits.
  assert (is_lit "-" path = false) as ->.
  { apply bool_decide_eq_false_2. intros ->. discriminate B. }
  rewrite B, Sp, F. reflexivity.
Qed.

(** The reference container keeps an ordinary file at every path that can
    be passed to a child, that [cat] does not read as an option, that is not
    a device, and that its shell can open for writing. *)
Lemma host_keeps_file (d : Docker) (c : Cloud) (path : str) (data : bytes) :
  serving d ->
  arg_error path = None ->
  begins_with_dash path = false ->
  is_special d path = false ->
  can_write d path = true ->
  keeps_file (container_name d) path data (host d c).
Proof.
  intros S A B Sp W script T.
  set (d1 := set_fs (<[path := data]> (files d)) (dirs d) d).
  exists (exited 0 []), (host d1 c), (exited 0 data), (host d1 c).
  split; [|split; [|reflexivity]].
  - cbn [spawn Host_External]. unfold on_docker, host. cbn [docker cloud].
    unfold bash_args.
    rewrite docker_spawn_exec_i;
      [ | exact S
        | cbn [args_error]; eval_lits;
          now rewrite (arg_error_script script path T A) ].
    now rewrite (in_container_script d script path data T Sp W).
  - cbn [spawn Host_External]. unfold on_docker, host. cbn [docker cloud].
    unfold cat_args. change (container_name d) with (container_name d1).
    rewrite (docker_spawn_exec d1 "cat" [path] None);
      [ | exact S | reflexivity | cbn [args_error]; now rewrite A ].
    rewrite (in_container_cat d1 path data B); [reflexivity | |].
    + apply bool_decide_eq_false in Sp. cbn [special set_fs d1].
      destruct (special d !! path) eqn:L; [|reflexivity].
      exfalso. apply Sp. eauto.
    + apply lookup_insert_eq.
Qed.

Section RoundTrip.
Context {X : Type} `{External X}.

End RoundTrip.

Lemma serving_running_world : serving (docker (ext running_world)).
Proof. repeat split. Qed.



(** *** Sessions in the reference world *)

Example session_world_has_s1 :
  sessions (docker (ext session_world)) !! lit "s1" = Some [].
Proof. vm_compute. reflexivity. Qed.

Lemma execute_session_command_exit_code_zero_witness :
  let args := send_keys_args "c0ffee1" "nope" "make test" in
  (exists p, fst (spawn args None (ext running_world)) = Ok p
             /\ exit_status p = 1%Z)
  /\ exists r,
       answer (LocalProcess_execute_session_command (process first_sandbox)
                 "nope" (ReqOther "make test") false) running_world = Ok r
       /\ exit_code r = 0%Z.
Proof.
  intros args. split.
  - eexists. split; vm_compute; reflexivity.
  - destruct (execute_session_command_exit_code_zero (process first_sandbox)
                "nope" (ReqOther "make test") false running_world
                (failed 1 "can't find session") (ext running_world))
      as (r & A & Z & _).
    + vm_compute. reflexivity.
    + exists r. split; [exact A | exact Z].
Defined.

(** Creating a session that exists and deleting one that does not: the
    [tmux] command fails, the operation returns, the host is as before. *)
Lemma local_operations_swallow_failures_witness :
  (answer (run_op (OpCreateSession (process first_sandbox) "s1"))
          session_world = Ok tt
   /\ ext (after (run_op (OpCreateSession (process first_sandbox) "s1"))
                 session_world) = ext session_world
   /\ exit_statuses
        (op_commands (OpCreateSession (process first_sandbox) "s1"))
        (ext session_world) = Some ([1%Z], ext session_world))
  /\ (answer (run_op (OpDeleteSession (process first_sandbox) "nope"))
             session_world = Ok tt
      /\ ext (after (run_op (OpDeleteSession (process first_sandbox) "nope"))
                    session_world) = ext session_world)
  /\ answer (run_op (OpCreateFolder (fs first_sandbox) [] "755"))
            session_world = Ok tt.
Proof.
  assert (A : forall op codes x,
             exit_statuses (op_commands op) (ext session_world)
             = Some (codes, x) ->
             answer (run_op op) session_world = Ok tt
             /\ ext (after (run_op op) session_world) = x).
  { intros op codes x E. unfold answer, after.
    rewrite (local_operations_swallow_failures op session_world codes x E).
    split; reflexivity. }
  split; [|split].
  - assert (E : exit_statuses
                  (op_commands (OpCreateSession (process first_sandbox) "s1"))
                  (ext session_world) = Some ([1%Z], ext session_world))
      by (vm_compute; reflexivity).
    destruct (A _ _ _ E) as [R X]. repeat split; assumption.
  - apply (A _ [1%Z]). vm_compute. reflexivity.
  - apply (A (OpCreateFolder (fs first_sandbox) [] "755") [1%Z; 1%Z]
             (ext session_world)).
    vm_compute. reflexivity.
Defined.

Lemma download_file_no_error_channel_witness :
  answer (LocalFS_download_file (fs first_sandbox) "/data") running_world
  = Ok (Some [])
  /\ answer (LocalFS_download_file (fs first_sandbox) "/data")
            empty_file_world
     = answer (LocalFS_download_file (fs first_sandbox) "/data")
              running_world
  /\ files (docker (ext running_world)) !! lit "/data" = None
  /\ files (docker (ext empty_file_world)) !! lit "/data" = Some [].
Proof.
  destruct (download_file_no_error_channel (fs first_sandbox) "/data"
              running_world (failed 1 "cat: No such file or directory")
              (ext running_world))
    as (A & B).
  - vm_compute. reflexivity.
  - discriminate.
  - reflexivity.
  - split; [exact A|]. split.
    + apply (B empty_file_world (exited 0 []) (ext empty_file_world)).
      * vm_compute. reflexivity.
      * reflexivity.
      * reflexivity.
    + split; vm_compute; reflexivity.
Defined.

(** ** The backend selector *)

Lemma lstrip_nil (s : str) : lstrip s = [] <-> forallb isspace s = true.
Proof.
  induction s as [|c s IH]; cbn; [tauto|].
  destruct (isspace c); cbn; [exact IH|]. split; discriminate.
Qed.

Lemma lstrip_blank_or_head (s : str) :
  lstrip s = [] \/ exists c r, lstrip s = c :: r /\ isspace c = false.
Proof.
  induction s as [|c s IH]; cbn; [now left|].
  destruct (isspace c) eqn:E; [exact IH|]. right. eauto.
Qed.

(** A string strips to nothing exactly when it is blank. *)
Lemma strip_nil (s : str) : strip s = [] <-> forallb isspace s = true.
Proof.
  unfold strip, rstrip. split.
  - intros E. apply lstrip_nil.
    destruct (lstrip_blank_or_head s) as [L|(c & r & L & Hc)]; [exact L|].
    rewrite L in E.
    assert (E' : lstrip (rev (c :: r)) = []).
    { destruct (lstrip (rev (c :: r))); [reflexivity|].
      apply (f_equal (@length N)) in E. rewrite length_rev in E.
      discriminate E. }
    apply lstrip_nil in E'. rewrite forallb_forall in E'.
    specialize (E' c). rewrite <- in_rev in E'.
    rewrite E' in Hc by (now left). discriminate Hc.
  - intros B. apply lstrip_nil in B. rewrite B. reflexivity.
Qed.

Lemma truthy_strip (s : str) :
  truthy (strip s) = true <-> exists c, In c s /\ isspace c = false.
Proof.
  split.
  - intros T. destruct (forallb isspace s) eqn:B.
    + apply strip_nil in B. rewrite B in T. discriminate T.
    + apply not_true_iff_false in B.
      rewrite forallb_forall in B.
      destruct (existsb (fun c => negb (isspace c)) s) eqn:Ex.
      * apply existsb_exists in Ex. destruct Ex as (c & I & N).
        exists c. split; [exact I|]. now apply negb_true_iff.
      * exfalso. apply B. intros c I.
        rewrite <- not_true_iff_false, existsb_exists in Ex.
        destruct (isspace c) eqn:Sc; [reflexivity|].
        exfalso. apply Ex. exists c. now rewrite Sc.
  - intros (c & I & N). destruct (strip s) eqn:St; [|reflexivity].
    apply strip_nil in St. rewrite forallb_forall in St.
    rewrite (St c I) in N. discriminate N.
Qed.

Section Routing.
Context {X : Type} `{External X}.
Variables (b : bool) (P : Event -> bool).

Lemma routed_ret {A} (a : A) : routed b P (ret a : M X A).
Proof. intros w U. split; [exact U|]. exists []. now rewrite app_nil_r. Qed.

Lemma routed_raise {A} (e : exn) : routed b P (raise e : M X A).
Proof. intros w U. split; [exact U|]. exists []. now rewrite app_nil_r. Qed.

Lemma routed_read {A} (f : World X -> A) : routed b P (read f).
Proof. intros w U. split; [exact U|]. exists []. now rewrite app_nil_r. Qed.

Lemma routed_set_local_sandbox (v : option LocalSandbox) :
  routed b P (set_local_sandbox v : M X unit).
Proof. intros w U. split; [exact U|]. exists []. now rewrite app_nil_r. Qed.

Lemma routed_new_LocalSandbox (cid : str) :
  routed b P (new_LocalSandbox cid : M X LocalSandbox).
Proof. intros w U. split; [exact U|]. exists []. now rewrite app_nil_r. Qed.

Lemma routed_call {A} (e : Event) (op : X -> result A * X) :
  P e = true -> routed b P (call e op).
Proof.
  intros Pe w U. unfold call. destruct (op (ext w)) as [r x]. cbn.
  split; [exact U|]. exists [e]. cbn. now rewrite Pe.
Qed.

Lemma routed_bind {A B} (m : M X A) (k : A -> M X B) :
  routed b P m -> (forall a, routed b P (k a)) -> routed b P (bind m k).
Proof.
  intros Hm Hk w U. unfold bind. destruct (Hm w U) as (U1 & l1 & T1 & F1).
  destruct (m w) as [[a|e] w1]; cbn [snd] in *.
  - destruct (Hk a w1 U1) as (U2 & l2 & T2 & F2).
    split; [exact U2|]. exists (l1 ++ l2).
    rewrite T2, T1, <- app_assoc, forallb_app, F1, F2. now split.
  - split; [exact U1|]. exists l1. now split.
Qed.

Lemma routed_try_except {A} (m : M X A) (h : exn -> M X A) :
  routed b P m -> (forall e, routed b P (h e)) -> routed b P (try_except m h).
Proof.
  intros Hm Hh w U. unfold try_except.
  destruct (Hm w U) as (U1 & l1 & T1 & F1).
  destruct (m w) as [[a|e] w1]; cbn [snd] in *.
  - split; [exact U1|]. exists l1. now split.
  - destruct (Hh e w1 U1) as (U2 & l2 & T2 & F2).
    split; [exact U2|]. exists (l1 ++ l2).
    rewrite T2, T1, <- app_assoc, forallb_app, F1, F2. now split.
Qed.

(** Reading the selector yields [b]. *)
Lemma routed_selector {A} (k : bool -> M X A) :
  routed b P (k b) -> routed b P (bind (read _use_daytona) k).
Proof.
  intros Hk w U. unfold bind, read. rewrite U. exact (Hk w U).
Qed.

Lemma routed_subprocess_run args input capture check :
  P (Subprocess args input) = true ->
  routed b P (subprocess_run args input capture check).
Proof.
  intros Pe. unfold subprocess_run. apply routed_bind.
  - now apply routed_call.
  - intros p. destruct (_ && _); [apply routed_raise | apply routed_ret].
Qed.

Lemma routed_subprocess_check_output args :
  P (Subprocess args None) = true ->
  routed b P (subprocess_check_output args).
Proof.
  intros Pe. unfold subprocess_check_output. apply routed_bind.
  - now apply routed_call.
  - intros p. destruct (negb _); [apply routed_raise | apply routed_ret].
Qed.
End Routing.

(** Decompose a routing goal along the structure of the program. *)
Ltac route :=
  repeat first
    [ apply routed_selector
    | apply routed_bind
    | apply routed_try_except
    | apply routed_ret
    | apply routed_raise
    | apply routed_read
    | apply routed_set_local_sandbox
    | apply routed_new_LocalSandbox
    | apply routed_subprocess_run; reflexivity
    | apply routed_subprocess_check_output; reflexivity
    | apply routed_call; reflexivity
    | match goal with
      | |- forall _, _ => intro
      | |- routed _ _ (match ?t with _ => _ end) => destruct t
      | |- routed _ _ (if ?t then _ else _) => destruct t
      end ].

Section Selector.
Context {X : Type} `{External X}.
Variable img : str.

Lemma routed_ensure (b : bool) :
  routed b is_subprocess (_ensure_local_sandbox : M X LocalSandbox).
Proof. unfold _ensure_local_sandbox. route. Qed.

(** With the local backend selected, a lifecycle operation launches child
    processes and calls no remote API. *)
Lemma routed_local (o : Op) :
  routed false is_subprocess
    (match o with
     | GetOrStart sid => bind (get_or_start_sandbox sid) (fun _ => ret tt)
     | CreateSandbox pw pid =>
       bind (create_sandbox img pw pid) (fun _ => ret tt)
     | DeleteSandbox sid => bind (delete_sandbox sid) (fun _ => ret tt)
     | StartSupervisord h => start_supervisord_session h
     end : M X unit).
Proof.
  destruct o.
  - unfold get_or_start_sandbox. apply routed_bind; [|route].
    apply routed_selector. cbn [negb]. apply routed_bind; [|route].
    apply routed_ensure.
  - unfold create_sandbox. apply routed_bind; [|route].
    apply routed_selector. cbn [negb]. apply routed_bind; [|route].
    apply routed_ensure.
  - unfold delete_sandbox. apply routed_bind; [|route].
    apply routed_selector. cbn [negb]. route.
  - unfold start_supervisord_session. apply routed_selector. cbn [negb].
    route.
Qed.

(** With the remote backend selected, a lifecycle operation calls the remote
    API and launches no child process. *)
Lemma routed_remote (o : Op) :
  remote_op o = true ->
  routed true is_remote
    (match o with
     | GetOrStart sid => bind (get_or_start_sandbox sid) (fun _ => ret tt)
     | CreateSandbox pw pid =>
       bind (create_sandbox img pw pid) (fun _ => ret tt)
     | DeleteSandbox sid => bind (delete_sandbox sid) (fun _ => ret tt)
     | StartSupervisord h => start_supervisord_session h
     end : M X unit).
Proof.
  intros R. destruct o.
  - unfold get_or_start_sandbox, start_supervisord_session. route.
  - unfold create_sandbox, start_supervisord_session. route.
  - unfold delete_sandbox. route.
  - destruct sandbox as [s|s]; [discriminate R|].
    unfold start_supervisord_session. route.
Qed.
End Selector.

Section SelectorTheorem.
Context {X : Type} `{External X}.
Variable img : str.

Lemma after_discard {A} (m : M X A) (w : World X) :
  after (bind m (fun _ => ret tt)) w = after m w.
Proof. unfold after, bind, ret. now destruct (m w) as [[a|e] w']. Qed.

Lemma run_lifecycle_routed (b : bool) (P : Event -> bool) (o : Op)
    (w : World X) :
  routed b P
    (match o with
     | GetOrStart sid => bind (get_or_start_sandbox sid) (fun _ => ret tt)
     | CreateSandbox pw pid =>
       bind (create_sandbox img pw pid) (fun _ => ret tt)
     | DeleteSandbox sid => bind (delete_sandbox sid) (fun _ => ret tt)
     | StartSupervisord h => start_supervisord_session h
     end : M X unit) ->
  _use_daytona w = b ->
  _use_daytona (run_lifecycle img o w) = b
  /\ exists l, trace (run_lifecycle img o w) = trace w ++ l
               /\ forallb P l = true.
Proof.
  intros R U. specialize (R w U).
  destruct o; cbn [run_lifecycle];
    [rewrite <- after_discard | rewrite <- after_discard
     | rewrite <- after_discard | ]; exact R.
Qed.

Lemma run_ops_local (ops : list Op) (w : World X) :
  _use_daytona w = false ->
  _use_daytona (run_ops img ops w) = false
  /\ exists l, trace (run_ops img ops w) = trace w ++ l
               /\ forallb is_subprocess l = true.
Proof.
  revert w. induction ops as [|o ops IH]; intros w U; cbn.
  - split; [exact U|]. exists []. now rewrite app_nil_r.
  - destruct (run_lifecycle_routed false is_subprocess o w
                (routed_local img o) U) as (U1 & l1 & T1 & F1).
    destruct (IH _ U1) as (U2 & l2 & T2 & F2).
    split; [exact U2|]. exists (l1 ++ l2).
    unfold run_ops in T2. rewrite T2, T1, <- app_assoc, forallb_app, F1, F2.
    now split.
Qed.

Lemma run_ops_remote (ops : list Op) (w : World X) :
  forallb remote_op ops = true ->
  _use_daytona w = true ->
  _use_daytona (run_ops img ops w) = true
  /\ exists l, trace (run_ops img ops w) = trace w ++ l
               /\ forallb is_remote l = true.
Proof.
  revert w. induction ops as [|o ops IH]; intros w R U; cbn.
  - split; [exact U|]. exists []. now rewrite app_nil_r.
  - cbn in R. apply andb_true_iff in R as [Ro R].
    destruct (run_lifecycle_routed true is_remote o w
                (routed_remote img o Ro) U) as (U1 & l1 & T1 & F1).
    destruct (IH _ R U1) as (U2 & l2 & T2 & F2).
    split; [exact U2|]. exists (l1 ++ l2).
    unfold run_ops in T2. rewrite T2, T1, <- app_assoc, forallb_app, F1, F2.
    now split.
Qed.

(** C6.  The selector is computed by the module body, from the environment
    as it is at import: it is true exactly when [DAYTONA_API_KEY] is set to a
    value with at least one character that is not white space.  No sequence
    of lifecycle operations changes it; with the credential absent or blank
    every call they make is a child process of the local backend, with the
    credential present every call goes to the remote API. *)
Theorem backend_selected_once (environ : str -> option str) (f : str)
    (x : X) (ops : list Op) :
  let w0 := module_init environ f x in
  let w := run_ops img ops w0 in
  (_use_daytona w0 = true
   <-> exists v, environ (lit "DAYTONA_API_KEY") = Some v
                 /\ exists c, In c v /\ isspace c = false)
  /\ (_use_daytona w0 = false
      <-> environ (lit "DAYTONA_API_KEY") = None
          \/ exists v, environ (lit "DAYTONA_API_KEY") = Some v
                       /\ forallb isspace v = true)
  /\ (_use_daytona w0 = false ->
      _use_daytona w = false /\ forallb is_subprocess (trace w) = true)
  /\ (_use_daytona w0 = true ->
      forallb remote_op ops = true ->
      _use_daytona w = true /\ forallb is_remote (trace w) = true).
Proof.
  intros w0 w.
  assert (K : _use_daytona w0 = true
              <-> exists v, environ (lit "DAYTONA_API_KEY") = Some v
                            /\ exists c, In c v /\ isspace c = false).
  { cbn. unfold _daytona_api_key, getenv. rewrite truthy_strip.
    destruct (environ (lit "DAYTONA_API_KEY")) as [v|].
    - split; [intros E; exists v; now split | now intros (v' & [= <-] & E)].
    - split; [intros (c & [] & _) | intros (v & [=] & _)]. }
  split; [exact K|]. split; [|split].
  - rewrite <- not_true_iff_false, K.
    destruct (environ (lit "DAYTONA_API_KEY")) as [v|].
    + split.
      * intros N. right. exists v. split; [reflexivity|].
        apply forallb_forall. intros c I.
        destruct (isspace c) eqn:Sc; [reflexivity|].
        exfalso. apply N. exists v. split; [reflexivity|]. eauto.
      * intros [[=]|(v1 & [= <-] & B)] (v2 & [= <-] & c & I & Sc).
        rewrite forallb_forall in B. rewrite (B c I) in Sc. discriminate Sc.
    + split; [now left | intros _ (v & [=] & _)].
  - intros U. destruct (run_ops_local ops w0 U) as (U' & l & T & F).
    split; [exact U'|]. subst w. rewrite T. exact F.
  - intros U R. destruct (run_ops_remote ops w0 R U) as (U' & l & T & F).
    split; [exact U'|]. subst w. rewrite T. exact F.
Qed.
End SelectorTheorem.

(** *** The selector on concrete environments *)

Example selector_blank_credential :
  _use_daytona
    (module_init (environ_with "DAYTONA_API_KEY" [32; 9; 10; 160; 8195]%N)
       compose_path (host fresh_docker (cloud_with true true STOPPED)))
  = false.
Proof. vm_compute. reflexivity. Qed.

Example selector_padded_credential :
  _daytona_api_key (environ_with "DAYTONA_API_KEY" "  dtn_123 ")
  = lit "dtn_123".
Proof. vm_compute. reflexivity. Qed.

Example local_operations_stay_local :
  forallb is_subprocess
    (trace (run_ops image_name
              [CreateSandbox "pw" None; GetOrStart "sb-1"; DeleteSandbox "sb-1";
               GetOrStart "sb-1"]
              (local_world fresh_docker)))
  = true.
Proof. vm_compute. reflexivity. Qed.

(** *** Session commands that fail leave the container as it is *)

Lemma new_session_duplicate (d : Docker) (s : str) (typed : list str)
    (input : option bytes) :
  sessions d !! s = Some typed ->
  in_container ["tmux" : str; "new-session" : str; "-d" : str; "-s" : str; s]
    input d
  = (failed 1 "duplicate session", d).
Proof. intros E. unfold in_container. eval_lits. cbn [andb]. now rewrite E. Qed.

Lemma kill_session_missing (d : Docker) (s : str) (input : option bytes) :
  sessions d !! s = None ->
  in_container ["tmux" : str; "kill-session" : str; "-t" : str; s] input d
  = (failed 1 "can't find session", d).
Proof. intros E. unfold in_container. eval_lits. cbn [andb]. now rewrite E. Qed.


(** ** Invariants of the module state *)

Section Invariants.
Context {X : Type} `{External X}.
Variable img : str.

(** A computation that only talks to the outside leaves the remembered
    sandbox and the allocator alone. *)
Definition frame {A} (m : M X A) : Prop :=
  forall w, _local_sandbox (snd (m w)) = _local_sandbox w
            /\ next_address (snd (m w)) = next_address w.

Lemma frame_ret {A} (a : A) : frame (ret a : M X A).
Proof. intros w. now split. Qed.

Lemma frame_raise {A} (e : exn) : frame (raise e : M X A).
Proof. intros w. now split. Qed.

Lemma frame_call {A} (e : Event) (op : X -> result A * X) : frame (call e op).
Proof. intros w. unfold call. destruct (op (ext w)). cbn. now split. Qed.

Lemma frame_bind {A B} (m : M X A) (k : A -> M X B) :
  frame m -> (forall a, frame (k a)) -> frame (bind m k).
Proof.
  intros Hm Hk w. unfold bind. destruct (Hm w) as [M1 N1].
  destruct (m w) as [[a|e] w1]; cbn [snd] in *.
  - destruct (Hk a w1) as [M2 N2]. split; congruence.
  - now split.
Qed.

Lemma frame_try_except {A} (m : M X A) (h : exn -> M X A) :
  frame m -> (forall e, frame (h e)) -> frame (try_except m h).
Proof.
  intros Hm Hh w. unfold try_except. destruct (Hm w) as [M1 N1].
  destruct (m w) as [[a|e] w1]; cbn [snd] in *.
  - now split.
  - destruct (Hh e w1) as [M2 N2]. split; congruence.
Qed.

Lemma frame_read {A} (f : World X -> A) : frame (read f).
Proof. intros w. now split. Qed.

Lemma frame_start_supervisord_session (h : Handle) :
  frame (start_supervisord_session h).
Proof.
  unfold start_supervisord_session.
  apply frame_bind; [apply frame_read|]. intros use.
  destruct use; cbn [negb]; [|apply frame_ret].
  apply frame_try_except; [|intros e; apply frame_raise].
  destruct h as [s|s]; cbn [process_create_session
                            process_execute_session_command].
  - unfold LocalProcess_create_session,
      LocalProcess_execute_session_command, subprocess_run.
    repeat first [ apply frame_bind | apply frame_call | apply frame_ret
                 | apply frame_raise
                 | match goal with
                   | |- forall _, _ => intro
                   | |- frame (if ?t then _ else _) => destruct t
                   end ].
  - apply frame_bind; [apply frame_call | intros _; apply frame_call].
Qed.

Lemma heap_ok_frame {A} (m : M X A) (w : World X) :
  frame m -> heap_ok w -> heap_ok (after m w).
Proof.
  intros F Hw sb. unfold after. destruct (F w) as [-> ->]. apply Hw.
Qed.

Lemma heap_ok_map {A B} (m : M X A) (f : A -> B) (w : World X) :
  heap_ok (after m w) -> heap_ok (after (bind m (fun a => ret (f a))) w).
Proof. unfold after, bind, ret. now destruct (m w) as [[a|e] w']. Qed.

(** Every lifecycle operation keeps the heap well formed. *)
Lemma heap_ok_run_lifecycle (o : Op) (w : World X) :
  heap_ok w -> heap_ok (run_lifecycle img o w).
Proof.
  intros Hw. destruct o; cbn [run_lifecycle].
  - unfold after, get_or_start_sandbox, bind at 1, read.
    destruct (_use_daytona w); cbn [negb].
    + apply (heap_ok_frame _ w); [|exact Hw].
      apply frame_try_except; [|intros e; apply frame_raise].
      apply frame_bind; [apply frame_call|]. intros sb.
      apply frame_bind; [|intros; apply frame_ret].
      destruct (needs_start sb); [|apply frame_ret].
      apply frame_try_except; [|intros e; apply frame_raise].
      apply frame_bind; [apply frame_call|]. intros _.
      apply frame_bind; [apply frame_call|]. intros sb'.
      apply frame_bind; [apply frame_start_supervisord_session|].
      intros _. apply frame_ret.
    + apply (heap_ok_map _ensure_local_sandbox LocalH).
      now apply heap_ok_ensure.
  - unfold after, create_sandbox, bind at 1, read.
    destruct (_use_daytona w); cbn [negb].
    + apply (heap_ok_frame _ w); [|exact Hw].
      apply frame_bind; [apply frame_call|]. intros sb.
      apply frame_bind; [apply frame_start_supervisord_session|].
      intros _. apply frame_ret.
    + apply (heap_ok_map _ensure_local_sandbox LocalH).
      now apply heap_ok_ensure.
  - unfold after, delete_sandbox, bind at 1, read.
    destruct (_use_daytona w); cbn [negb].
    + apply (heap_ok_frame _ w); [|exact Hw].
      apply frame_try_except; [|intros e; apply frame_raise].
      apply frame_bind; [apply frame_call|]. intros sb.
      apply frame_bind; [apply frame_call|]. intros _. apply frame_ret.
    + unfold bind, read, subprocess_run, bind, call, set_local_sandbox, ret.
      destruct (spawn _ _ (ext w)) as [[p|e] x]; cbn.
      * intros sb. cbn. discriminate.
      * intros sb. cbn. apply Hw.
  - apply heap_ok_frame; [apply frame_start_supervisord_session | exact Hw].
Qed.

(** The heap is well formed in every world the process can reach. *)
Lemma heap_ok_reachable (environ : str -> option str) (f : str) (x : X)
    (ops : list Op) :
  heap_ok (run_ops img ops (module_init environ f x)).
Proof.
  unfold run_ops. generalize (heap_ok_init environ f x).
  generalize (module_init environ f x).
  induction ops as [|o ops IH]; intros w Hw; cbn [fold_left].
  - exact Hw.
  - apply IH. now apply heap_ok_run_lifecycle.
Qed.

(** In any sequence of ensure calls, those that return all return the same
    object: a call that raises remembers nothing, the first that returns
    fixes the sandbox for the rest. *)
Lemma ensure_calls_agree (cs : list EnsureCall) (w : World X)
    (h1 h2 : Handle) :
  _use_daytona w = false ->
  In (Ok h1) (fst (run_calls img cs w)) ->
  In (Ok h2) (fst (run_calls img cs w)) ->
  h1 = h2.
Proof.
  revert w. induction cs as [|c cs IH]; intros w U; cbn [run_calls].
  - intros [].
  - destruct (run_call img c w) as [r w1] eqn:R.
    destruct r as [h|e].
    + destruct (run_call_returns img c w w1 h U R) as (sb & -> & En).
      destruct (ensure_returns w w1 sb En) as (Memo & U1 & _).
      rewrite U in U1.
      rewrite (run_calls_memo img cs w1 sb U1 Memo). cbn [fst].
      assert (A : forall h, In (Ok h) (Ok (LocalH sb)
                                       :: map (fun _ => Ok (LocalH sb)) cs) ->
                  h = LocalH sb).
      { intros h [[= <-]|I]; [reflexivity|].
        apply in_map_iff in I. destruct I as (? & [= <-] & _). reflexivity. }
      intros I1 I2. now rewrite (A h1 I1), (A h2 I2).
    + assert (U1 : _use_daytona w1 = false).
      { rewrite (run_call_local img c w U) in R.
        assert (Rt : routed false is_subprocess
                       (bind _ensure_local_sandbox
                          (fun s => ret (LocalH s)) : M X Handle)).
        { apply routed_bind; [apply routed_ensure | intros; apply routed_ret]. }
        destruct (Rt w U) as [U1 _]. rewrite R in U1. exact U1. }
      specialize (IH w1 U1).
      destruct (run_calls img cs w1) as [rs w2]. cbn [fst] in *.
      intros [[=]|I1] [[=]|I2]. now apply IH.
Qed.
End Invariants.

(** ** Trimming *)

Lemma lstrip_split (s : str) :
  exists p, s = p ++ lstrip s /\ forallb isspace p = true.
Proof.
  induction s as [|c s (p & E & B)]; [now exists []|]. cbn [lstrip].
  destruct (isspace c) eqn:Sc.
  - exists (c :: p). cbn. rewrite Sc, B. split; [now f_equal | reflexivity].
  - now exists [].
Qed.

Lemma lstrip_head (s : str) (c : N) (r : str) :
  lstrip s = c :: r -> isspace c = false.
Proof.
  destruct (lstrip_blank_or_head s) as [->|(c' & r' & -> & Sc)];
    [discriminate | now intros [= <- <-]].
Qed.

Lemma lstrip_fixed (c : N) (r : str) :
  isspace c = false -> lstrip (c :: r) = c :: r.
Proof. intros Sc. cbn. now rewrite Sc. Qed.

Lemma lstrip_lstrip (s : str) : lstrip (lstrip s) = lstrip s.
Proof.
  destruct (lstrip s) as [|c r] eqn:E; [reflexivity|].
  apply lstrip_fixed. exact (lstrip_head s c r E).
Qed.

Lemma lstrip_blank_app (p s : str) :
  forallb isspace p = true -> lstrip (p ++ s) = lstrip s.
Proof.
  induction p as [|c p IH]; [reflexivity|]. cbn.
  intros [-> B]%andb_true_iff. now apply IH.
Qed.

Lemma lstrip_app_head (s t : str) (c : N) (r : str) :
  lstrip s = c :: r -> lstrip (s ++ t) = lstrip s ++ t.
Proof.
  induction s as [|a s IH]; cbn; [discriminate|].
  destruct (isspace a); [exact IH | reflexivity].
Qed.

(** What [strip] returns has no white space at either end. *)
Lemma strip_trimmed (s : str) : trimmed (strip s).
Proof.
  unfold trimmed, strip, rstrip. split.
  - destruct (lstrip_split (rev (lstrip s))) as (p & E & _).
    destruct (rev (lstrip (rev (lstrip s)))) as [|c r] eqn:R; [reflexivity|].
    apply lstrip_fixed.
    apply (f_equal (@rev N)) in E. rewrite rev_involutive, rev_app_distr, R in E.
    exact (lstrip_head s c (r ++ rev p) E).
  - now rewrite rev_involutive, lstrip_lstrip.
Qed.

Lemma rstrip_app_blank (s p : str) :
  forallb isspace p = true -> rstrip (s ++ p) = rstrip s.
Proof.
  intros B. unfold rstrip. rewrite rev_app_distr, lstrip_blank_app; [easy|].
  rewrite forallb_forall in *. intros c I. apply B. now apply in_rev.
Qed.

(** Blank padding on either side does not change what [strip] returns. *)
Lemma strip_padding (a s b : str) :
  forallb isspace a = true -> forallb isspace b = true ->
  strip (a ++ s ++ b) = strip s.
Proof.
  intros A B. unfold strip. rewrite (lstrip_blank_app a _ A).
  destruct (lstrip s) as [|c r] eqn:L.
  - apply lstrip_nil in L.
    assert (L' : lstrip (s ++ b) = []).
    { apply lstrip_nil. now rewrite forallb_app, L, B. }
    now rewrite L'.
  - rewrite (lstrip_app_head s b c r L), L. now apply rstrip_app_blank.
Qed.

(** ** Provisioning: how it fails and what it returns *)

(** Unfold a run down to the calls it makes. *)
Ltac unfold_run :=
  unfold get_or_start_sandbox, create_sandbox, delete_sandbox,
    start_supervisord_session, _ensure_local_sandbox,
    process_create_session, process_execute_session_command,
    subprocess_run, subprocess_check_output, try_except, bind, read, call,
    raise, ret, new_LocalSandbox, set_local_sandbox.

Section Provisioning.
Context {X : Type} `{External X}.

(** The three ways a run of [_ensure_local_sandbox] can go. *)
Lemma ensure_outcome (w w' : World X) (r : result LocalSandbox) :
  _ensure_local_sandbox w = (r, w') ->
  _use_daytona w' = _use_daytona w
  /\ ((exists sb, r = Ok sb /\ _local_sandbox w = Some sb /\ w' = w)
      \/ (exists text,
            r = Ok (make_LocalSandbox (next_address w) (container_id_of text))
            /\ _local_sandbox w = None
            /\ _local_sandbox w'
               = Some (make_LocalSandbox (next_address w)
                         (container_id_of text))
            /\ next_address w' = S (next_address w))
      \/ (exists e, r = Raise e
                    /\ _local_sandbox w = None
                    /\ _local_sandbox w' = None
                    /\ next_address w' = next_address w)).
Proof.
  destruct (_local_sandbox w) as [sb0|] eqn:E.
  - rewrite (ensure_memo w sb0 E). intros [= <- <-]. split; [reflexivity|].
    left. eauto.
  - unfold_run. rewrite E.
    repeat case_match; simplify_eq; intros [= <- <-]; cbn;
      (split; [reflexivity|]);
      first [ solve [right; right; eexists; repeat split;
                     first [reflexivity | exact E]]
            | right; left;
              match goal with
              | D : decode _ = Some ?t |- _ => exists t
              end; unfold make_LocalSandbox, container_id_of;
              match goal with T : truthy _ = _ |- _ => rewrite T end;
              repeat split; first [reflexivity | exact E] ].
Qed.

Lemma container_id_of_ok (text : str) :
  container_id_of text <> [] /\ trimmed (container_id_of text).
Proof.
  unfold container_id_of. destruct (truthy (strip text)) eqn:T.
  - split; [|apply strip_trimmed]. intros Z. now rewrite Z in T.
  - split; [discriminate|]. split; vm_compute; reflexivity.
Qed.

Lemma make_LocalSandbox_ok (a : nat) (text : str) :
  sandbox_ok (make_LocalSandbox a (container_id_of text)).
Proof.
  destruct (container_id_of_ok text) as [N T]. unfold sandbox_ok. cbn. tauto.
Qed.

(** X1.  When [_ensure_local_sandbox] raises, nothing was remembered before,
    nothing is remembered or allocated after, the run began with the compose
    [up] command, and the next call begins with it again: a failed
    provisioning is retried from the start. *)
Theorem ensure_raise_remembers_nothing (w w' : World X) (e : exn) :
  _ensure_local_sandbox w = (Raise e, w') ->
  _local_sandbox w = None
  /\ _local_sandbox w' = None
  /\ next_address w' = next_address w
  /\ (exists rest,
        new_events w w' = Subprocess (up_args (_compose_file w)) None :: rest)
  /\ exists rest,
       new_events w' (after _ensure_local_sandbox w')
       = Subprocess (up_args (_compose_file w)) None :: rest.
Proof.
  intros R.
  assert (E : _local_sandbox w = None).
  { destruct (_local_sandbox w) as [sb|] eqn:E; [|reflexivity].
    rewrite (ensure_memo w sb E) in R. discriminate R. }
  assert (P : _local_sandbox w' = None /\ next_address w' = next_address w
              /\ _compose_file w' = _compose_file w).
  { revert R. unfold_run. rewrite E.
    repeat case_match; simplify_eq; intros [= <- <-]; cbn; auto. }
  destruct P as (M' & N' & F').
  split; [exact E|]. split; [exact M'|]. split; [exact N'|]. split.
  - destruct (ensure_reprovisions w E) as (rest & T).
    unfold after in T. rewrite R in T. eauto.
  - rewrite <- F'. exact (ensure_reprovisions w' M').
Qed.

(** X2.  With nothing remembered, a compose [up] that exits with a non-zero
    status makes [_ensure_local_sandbox] raise [CalledProcessError] with that
    status and command; the container lookup is not attempted. *)
Theorem ensure_up_failure (w : World X) (p : ProcessExit) (x1 : X) :
  _local_sandbox w = None ->
  spawn (up_args (_compose_file w)) None (ext w) = (Ok p, x1) ->
  exit_status p <> 0%Z ->
  answer _ensure_local_sandbox w
  = Raise (CalledProcessError (exit_status p) (up_args (_compose_file w)))
  /\ new_events w (after _ensure_local_sandbox w)
     = [Subprocess (up_args (_compose_file w)) None]
  /\ count (is_ps (_compose_file w))
       (new_events w (after _ensure_local_sandbox w)) = 0.
Proof.
  intros E S NZ. apply Z.eqb_neq in NZ.
  assert (R : _ensure_local_sandbox w
              = (Raise (CalledProcessError (exit_status p)
                          (up_args (_compose_file w))),
                 with_ext x1 (Subprocess (up_args (_compose_file w)) None) w)).
  { unfold_run. rewrite E. fold (up_args (_compose_file w)).
    rewrite S. cbn. rewrite NZ. reflexivity. }
  unfold answer, after. rewrite R. cbn [fst snd].
  rewrite (new_events_app w _ [Subprocess (up_args (_compose_file w)) None])
    by reflexivity.
  split; [reflexivity|]. split; [reflexivity|].
  unfold count. cbn.
  rewrite bool_decide_eq_false_2 by (unfold up_args, ps_args; congruence).
  reflexivity.
Qed.

(** X3.  With nothing remembered and the compose project brought up, a
    container lookup that exits with a non-zero status raises
    [CalledProcessError], and one whose output is not UTF-8 raises
    [UnicodeDecodeError]; either way nothing is remembered and the project
    that was brought up is left as it is: the run logs the two commands only. *)
Theorem ensure_lookup_failure (w : World X) (p1 p2 : ProcessExit)
    (x1 x2 : X) :
  _local_sandbox w = None ->
  spawn (up_args (_compose_file w)) None (ext w) = (Ok p1, x1) ->
  exit_status p1 = 0%Z ->
  spawn (ps_args (_compose_file w)) None x1 = (Ok p2, x2) ->
  exit_status p2 <> 0%Z \/ decode (exit_stdout p2) = None ->
  answer _ensure_local_sandbox w
  = Raise (if (exit_status p2 =? 0)%Z then UnicodeDecodeError
           else CalledProcessError (exit_status p2)
                  (ps_args (_compose_file w)))
  /\ _local_sandbox (after _ensure_local_sandbox w) = None
  /\ new_events w (after _ensure_local_sandbox w)
     = [Subprocess (up_args (_compose_file w)) None;
        Subprocess (ps_args (_compose_file w)) None].
Proof.
  intros E S1 Z1 S2 Bad.
  unfold answer, after. unfold_run. rewrite E.
  fold (up_args (_compose_file w)). rewrite S1. cbn. rewrite Z1. cbn.
  fold (ps_args (_compose_file w)). rewrite S2. cbn.
  destruct (exit_status p2 =? 0)%Z eqn:Z2; cbn.
  - destruct Bad as [NZ|D]; [apply Z.eqb_eq in Z2; contradiction|].
    rewrite D. cbn. split; [reflexivity|]. split; [exact E|].
    apply new_events_app. cbn. now rewrite <- app_assoc.
  - split; [reflexivity|]. split; [exact E|].
    apply new_events_app. cbn. now rewrite <- app_assoc.
Qed.

(** A sandbox returned with nothing remembered before was provisioned: both
    commands ran and exited with status zero, the lookup's output decoded,
    and the sandbox was built from that text. *)
Lemma ensure_ok_inv (w w' : World X) (sb : LocalSandbox) :
  _local_sandbox w = None ->
  _ensure_local_sandbox w = (Ok sb, w') ->
  exists text,
    provisioning_succeeds w (ext w') text
    /\ sb = make_LocalSandbox (next_address w) (container_id_of text).
Proof.
  intros E. unfold_run. rewrite E.
  fold (up_args (_compose_file w)). fold (ps_args (_compose_file w)).
  destruct (spawn (up_args (_compose_file w)) None (ext w))
    as [[p1|e1] x1] eqn:S1; cbn; [|discriminate].
  destruct (exit_status p1 =? 0)%Z eqn:Z1; cbn; [|discriminate].
  destruct (spawn (ps_args (_compose_file w)) None x1)
    as [[p2|e2] x2] eqn:S2; cbn; [|discriminate].
  destruct (exit_status p2 =? 0)%Z eqn:Z2; cbn; [|discriminate].
  destruct (decode (exit_stdout p2)) as [text|] eqn:D; cbn; [|discriminate].
  intros [= <- <-]. exists text. split.
  - exists p1, x1, p2. cbn. apply Z.eqb_eq in Z1, Z2. repeat split; assumption.
  - unfold make_LocalSandbox, container_id_of.
    now destruct (truthy (strip text)).
Qed.

(** X4.  A sandbox that [_ensure_local_sandbox] provisions takes its
    identifier from the container lookup: the two commands ran and exited
    with status zero, and the identifier is the decoded output of the lookup
    with the white space at both ends removed or, when that output is blank,
    the fallback [local-sandbox].  It is never empty, has no white space at
    either end, and the process and file interfaces are bound to it. *)
Theorem ensure_identifier_well_formed (w w' : World X) (sb : LocalSandbox) :
  _local_sandbox w = None ->
  _ensure_local_sandbox w = (Ok sb, w') ->
  exists p1 x1 p2 text,
    spawn (up_args (_compose_file w)) None (ext w) = (Ok p1, x1)
    /\ exit_status p1 = 0%Z
    /\ spawn (ps_args (_compose_file w)) None x1 = (Ok p2, ext w')
    /\ exit_status p2 = 0%Z
    /\ decode (exit_stdout p2) = Some text
    /\ (forallb isspace text = true -> id sb = lit "local-sandbox")
    /\ (forallb isspace text = false -> id sb = strip text)
    /\ address sb = next_address w
    /\ sandbox_ok sb.
Proof.
  intros E R.
  destruct (ensure_ok_inv w w' sb E R)
    as (text & (p1 & x1 & p2 & S1 & Z1 & S2 & Z2 & D) & ->).
  exists p1, x1, p2, text.
  repeat (split; [assumption|]).
  cbn [make_LocalSandbox id address]. unfold container_id_of.
  split; [|split; [|split; [reflexivity | apply make_LocalSandbox_ok]]].
  - intros B. apply strip_nil in B. now rewrite B.
  - intros B. destruct (strip text) eqn:St; [|reflexivity].
    apply strip_nil in St. congruence.
Qed.
End Provisioning.

(** ** The module state over the life of the process *)

Ltac framed :=
  repeat first
    [ apply frame_bind
    | apply frame_try_except
    | apply frame_ret
    | apply frame_raise
    | apply frame_call
    | apply frame_read
    | apply frame_start_supervisord_session
    | match goal with
      | |- forall _, _ => intro
      | |- frame (if ?t then _ else _) => destruct t
      | |- frame (match ?t with _ => _ end) => destruct t
      end ].

Section StateInvariant.
Context {X : Type} `{External X}.
Variable img : str.

Lemma after_selector {A} (k : bool -> M X A) (w : World X) :
  after (bind (read _use_daytona) k) w = after (k (_use_daytona w)) w.
Proof. reflexivity. Qed.

Lemma frame_after {A} (m : M X A) (w : World X) :
  frame m ->
  _local_sandbox (after m w) = _local_sandbox w
  /\ next_address (after m w) = next_address w.
Proof. intros F. exact (F w). Qed.

Lemma run_lifecycle_flag (o : Op) (w : World X) :
  _use_daytona (run_lifecycle img o w) = _use_daytona w.
Proof.
  assert (R : forall A (m : M X A),
             routed (_use_daytona w) (fun _ => true) m ->
             _use_daytona (after m w) = _use_daytona w).
  { intros A m Rm. exact (proj1 (Rm w eq_refl)). }
  destruct o; cbn [run_lifecycle]; apply R.
  - unfold get_or_start_sandbox, start_supervisord_session,
      _ensure_local_sandbox. route.
  - unfold create_sandbox, start_supervisord_session, _ensure_local_sandbox.
    route.
  - unfold delete_sandbox. route.
  - unfold start_supervisord_session. destruct sandbox as [s|s];
      cbn [process_create_session process_execute_session_command];
      unfold LocalProcess_create_session,
        LocalProcess_execute_session_command; route.
Qed.

(** A process that selected the remote backend never touches the local
    sandbox or the allocator. *)
Lemma run_lifecycle_remote_frame (o : Op) (w : World X) :
  _use_daytona w = true ->
  _local_sandbox (run_lifecycle img o w) = _local_sandbox w
  /\ next_address (run_lifecycle img o w) = next_address w.
Proof.
  intros U. destruct o; cbn [run_lifecycle].
  - unfold get_or_start_sandbox. rewrite after_selector, U. cbn [negb].
    apply frame_after. framed.
  - unfold create_sandbox. rewrite after_selector, U. cbn [negb].
    apply frame_after. framed.
  - unfold delete_sandbox. rewrite after_selector, U. cbn [negb].
    apply frame_after. framed.
  - apply frame_after. apply frame_start_supervisord_session.
Qed.

Lemma memo_ok_ensure (w : World X) :
  memo_ok w -> memo_ok (after _ensure_local_sandbox w).
Proof.
  intros Hw. unfold after.
  destruct (_ensure_local_sandbox w) as [r w'] eqn:R. cbn [snd].
  destruct (ensure_outcome w w' r R)
    as (_ & [(sb & _ & _ & ->)|[(text & _ & _ & M & N)|(e & _ & _ & M & _)]]).
  - exact Hw.
  - intros sb. rewrite M, N. intros [= <-]. split; [cbn; lia|].
    apply make_LocalSandbox_ok.
  - intros sb. rewrite M. discriminate.
Qed.

Lemma memo_ok_map {A B} (m : M X A) (g : A -> B) (w : World X) :
  memo_ok (after m w) -> memo_ok (snd (bind m (fun a => ret (g a)) w)).
Proof. unfold after, bind, ret. now destruct (m w) as [[a|e] w']. Qed.

Lemma memo_ok_run_lifecycle (o : Op) (w : World X) :
  memo_ok w -> memo_ok (run_lifecycle img o w).
Proof.
  intros Hw. destruct (_use_daytona w) eqn:U.
  - destruct (run_lifecycle_remote_frame o w U) as [M N].
    intros sb. rewrite M, N. apply Hw.
  - destruct o as [sid|pw pid|sid|h]; cbn [run_lifecycle]; unfold after.
    + rewrite (get_or_start_sandbox_local sid w U).
      apply memo_ok_map. now apply memo_ok_ensure.
    + rewrite (create_sandbox_local img pw pid w U).
      apply memo_ok_map. now apply memo_ok_ensure.
    + unfold_run. rewrite U. cbn [negb].
      destruct (spawn _ _ (ext w)) as [[p|e] x]; cbn; intros sb; cbn.
      * discriminate.
      * apply Hw.
    + destruct (frame_after _ w (frame_start_supervisord_session h))
        as [M N].
      intros sb. unfold after in M, N. rewrite M, N. apply Hw.
Qed.

(** X5.  In every world the process can reach by lifecycle operations, a
    remembered sandbox was allocated earlier, has a non-empty trimmed
    identifier and has both interfaces bound to that identifier; and a
    process that selected the remote backend remembers no local sandbox and
    has allocated none. *)
Theorem module_state_invariant (environ : str -> option str) (f : str)
    (x : X) (ops : list Op) :
  let w := run_ops img ops (module_init environ f x) in
  memo_ok w
  /\ (_use_daytona w = true ->
      _local_sandbox w = None /\ next_address w = 0).
Proof.
  cbv zeta. unfold run_ops.
  assert (I0 : memo_ok (module_init environ f x)
               /\ (_use_daytona (module_init environ f x) = true ->
                   _local_sandbox (module_init environ f x) = None
                   /\ next_address (module_init environ f x) = 0)).
  { split; [intros sb; discriminate | now intros _]. }
  revert I0. generalize (module_init environ f x).
  induction ops as [|o ops IH]; intros w I; cbn [fold_left]; [exact I|].
  apply IH. destruct I as [Ok1 Rm]. split.
  - now apply memo_ok_run_lifecycle.
  - rewrite run_lifecycle_flag. intros U.
    destruct (run_lifecycle_remote_frame o w U) as [-> ->]. now apply Rm.
Qed.
End StateInvariant.

Section Allocation.
Context {X : Type} `{External X}.
Variable img : str.

Lemma run_call_outcome (c : EnsureCall) (w w' : World X) (r : result Handle) :
  _use_daytona w = false ->
  run_call img c w = (r, w') ->
  _use_daytona w' = false
  /\ ((exists sb, r = Ok (LocalH sb) /\ _local_sandbox w = Some sb /\ w' = w)
      \/ (exists sb, r = Ok (LocalH sb)
                     /\ _local_sandbox w = None
                     /\ _local_sandbox w' = Some sb
                     /\ next_address w' = S (next_address w))
      \/ (exists e, r = Raise e
                    /\ _local_sandbox w = None
                    /\ _local_sandbox w' = None
                    /\ next_address w' = next_address w)).
Proof.
  intros U. rewrite (run_call_local img c w U). unfold bind, ret.
  destruct (_ensure_local_sandbox w) as [r0 w0] eqn:R.
  destruct (ensure_outcome w w0 r0 R)
    as (F & [(sb & -> & M & ->)|[(text & -> & M & M' & N)|(e & -> & M & M' & N)]]);
    intros [= <- <-]; (split; [congruence|]).
  - left. eauto.
  - right. left. eauto.
  - right. right. eauto.
Qed.

(** X6.  Over any sequence of calls of the ensure operation on the local
    backend, failing calls included, at most one [LocalSandbox] object is
    allocated: none when a sandbox was already remembered (the world does not
    even change), and exactly one when nothing was remembered and some call
    returned. *)
Theorem ensure_allocates_at_most_once (cs : list EnsureCall) (w : World X) :
  _use_daytona w = false ->
  let w' := snd (run_calls img cs w) in
  next_address w <= next_address w' <= S (next_address w)
  /\ (is_Some (_local_sandbox w) -> w' = w)
  /\ (next_address w' = S (next_address w)
      <-> _local_sandbox w = None
          /\ exists h, In (Ok h) (fst (run_calls img cs w))).
Proof.
  cbv zeta. revert w. induction cs as [|c cs IH]; intros w U; cbn [run_calls].
  - cbn. split; [lia|]. split; [reflexivity|].
    split; [lia | now intros (_ & h & [])].
  - destruct (run_call img c w) as [r w1] eqn:R.
    destruct (run_call_outcome c w w1 r U R)
      as (U1 & [(sb & -> & M & ->)|[(sb & -> & M & M1 & N1)|(e & -> & M & M1 & N1)]]).
    + rewrite (run_calls_memo img cs w sb U M). cbn [fst snd].
      split; [lia|]. split; [reflexivity|]. split; [lia|].
      intros (Z & _). congruence.
    + rewrite (run_calls_memo img cs w1 sb U1 M1). cbn [fst snd].
      split; [lia|]. split; [intros [? ?]; congruence|].
      split; [|intros _; exact N1].
      intros _. split; [exact M|]. exists (LocalH sb). now left.
    + specialize (IH w1 U1). destruct (run_calls img cs w1) as [rs w2].
      cbn [fst snd] in *. rewrite N1, M1 in IH.
      destruct IH as (B & _ & I). split; [exact B|].
      split; [intros [? ?]; congruence|].
      rewrite I. split.
      * intros (_ & h & Ih). split; [exact M|]. exists h. now right.
      * intros (_ & h & [[=]|Ih]). split; [reflexivity|]. eauto.
Qed.
End Allocation.

(** ** The remote backend: failures and what is never called *)

(** Replay the answers of the outside world that the hypotheses give. *)
Ltac replay :=
  repeat match goal with
         | Hs : ?l = (_, _) |- context [?l] => rewrite Hs; cbn
         | Hs : needs_start ?b = _ |- context [needs_start ?b] =>
           rewrite Hs; cbn
         | Hu : _use_daytona ?w = _ |- context [_use_daytona ?w] =>
           rewrite Hu; cbn
         end.

Ltac log_is := apply new_events_app; cbn; rewrite <- ?app_assoc; reflexivity.

Section RemoteFailures.
Context {X : Type} `{External X}.
Variable img : str.

(** X7.  Remote backend: whichever call of [get_or_start_sandbox] fails
    first (the fetch, the start, the second fetch, the session creation or
    the command submission), the exception it raised is the one the caller
    gets, and no later call is made. *)
Theorem get_or_start_sandbox_failure_propagates (sid : str) (w : World X) :
  _use_daytona w = true ->
  let run := get_or_start_sandbox sid in
  (forall e x1,
     daytona_get_current_sandbox sid (ext w) = (Raise e, x1) ->
     answer run w = Raise e
     /\ new_events w (after run w) = [GetCurrentSandbox sid])
  /\ (forall sb x1 e x2,
        daytona_get_current_sandbox sid (ext w) = (Ok sb, x1) ->
        needs_start sb = true ->
        daytona_start sb x1 = (Raise e, x2) ->
        answer run w = Raise e
        /\ new_events w (after run w) = [GetCurrentSandbox sid; Start sb])
  /\ (forall sb x1 x2 e x3,
        daytona_get_current_sandbox sid (ext w) = (Ok sb, x1) ->
        needs_start sb = true ->
        daytona_start sb x1 = (Ok tt, x2) ->
        daytona_get_current_sandbox sid x2 = (Raise e, x3) ->
        answer run w = Raise e
        /\ new_events w (after run w)
           = [GetCurrentSandbox sid; Start sb; GetCurrentSandbox sid])
  /\ (forall sb x1 x2 sb' x3 e x4,
        daytona_get_current_sandbox sid (ext w) = (Ok sb, x1) ->
        needs_start sb = true ->
        daytona_start sb x1 = (Ok tt, x2) ->
        daytona_get_current_sandbox sid x2 = (Ok sb', x3) ->
        remote_create_session sb' supervisord_session x3 = (Raise e, x4) ->
        answer run w = Raise e
        /\ new_events w (after run w)
           = [GetCurrentSandbox sid; Start sb; GetCurrentSandbox sid;
              CreateSession sb' supervisord_session])
  /\ (forall sb x1 x2 sb' x3 x4 e x5,
        daytona_get_current_sandbox sid (ext w) = (Ok sb, x1) ->
        needs_start sb = true ->
        daytona_start sb x1 = (Ok tt, x2) ->
        daytona_get_current_sandbox sid x2 = (Ok sb', x3) ->
        remote_create_session sb' supervisord_session x3 = (Ok tt, x4) ->
        remote_execute_session_command sb' supervisord_session
          supervisord_request x4 = (Raise e, x5) ->
        answer run w = Raise e
        /\ new_events w (after run w)
           = [GetCurrentSandbox sid; Start sb; GetCurrentSandbox sid;
              CreateSession sb' supervisord_session;
              ExecuteSessionCommand sb' supervisord_session
                supervisord_request]).
Proof.
  intros U run. subst run. unfold supervisord_session.
  repeat split; intros; unfold answer, after; unfold_run; rewrite U; cbn;
    replay; first [reflexivity | log_is].
Qed.
End RemoteFailures.

Section RemoteCalls.
Context {X : Type} `{External X}.
Variable img : str.

(** Finish a goal about the log of a run that has been reduced to a world
    built by [with_ext]. *)
Ltac count_log :=
  match goal with
  | |- context [new_events ?w ?w'] =>
    let l := fresh "l" in
    let T := fresh "T" in
    evar (l : list Event);
    assert (T : new_events w w' = l)
      by (subst l; apply new_events_app; cbn; rewrite <- ?app_assoc;
          first [reflexivity | symmetry; apply app_nil_r]);
    subst l; rewrite !T; cbn; repeat split; lia
  end.

(** X8.  Remote backend: however the calls fare, one run of
    [get_or_start_sandbox] fetches at most twice, starts at most once,
    creates at most one session and submits at most one command; it never
    creates or removes a sandbox and launches no child process.  Nothing is
    retried. *)
Theorem get_or_start_sandbox_bounded_calls (sid : str) (w : World X) :
  _use_daytona w = true ->
  let l := new_events w (after (get_or_start_sandbox sid) w) in
  1 <= count is_get l <= 2
  /\ count is_start l <= 1
  /\ count is_create_session l <= 1
  /\ count is_execute l <= 1
  /\ count is_create l = 0
  /\ count is_remove l = 0
  /\ count is_subprocess l = 0.
Proof.
  intros U. cbv zeta. unfold after.
  destruct (get_or_start_sandbox sid w) as [r w'] eqn:R. cbn [snd].
  revert R. unfold_run. rewrite U. cbn.
  repeat case_match; simplify_eq; cbn; intros [= <- <-];
    try (match goal with
         | Hn : negb _ = true |- _ =>
           cbn in Hn; rewrite U in Hn; discriminate Hn
         end);
    count_log.
Qed.

(** X9.  Remote backend: when the service creates the sandbox and the
    supervisor session starts, [create_sandbox] returns the created handle
    after exactly three calls: create, create the supervisor session, submit
    the supervisor command.  The parameters carry the image name, the
    password as [VNC_PASSWORD], the resources 2/4/5, and a label [id] equal
    to the project id exactly when a non-empty project id is given. *)
Theorem create_sandbox_remote (pw : str) (pid : option str) (w : World X)
    (sb : Sandbox) (x1 x2 x3 : X) :
  _use_daytona w = true ->
  daytona_create (sandbox_params img pw pid) (ext w) = (Ok sb, x1) ->
  remote_create_session sb supervisord_session x1 = (Ok tt, x2) ->
  remote_execute_session_command sb supervisord_session supervisord_request
    x2 = (Ok tt, x3) ->
  let params := sandbox_params img pw pid in
  answer (create_sandbox img pw pid) w = Ok (RemoteH sb)
  /\ new_events w (after (create_sandbox img pw pid) w)
     = [Create params; CreateSession sb supervisord_session;
        ExecuteSessionCommand sb supervisord_session supervisord_request]
  /\ image params = img
  /\ dict_get (lit "VNC_PASSWORD") (env_vars params) = Some pw
  /\ (forall p, pid = Some p -> p <> [] ->
                labels params = Some [(lit "id", p)])
  /\ (pid = None \/ pid = Some [] -> labels params = None)
  /\ dict_get (lit "cpu") (resources params) = Some 2%Z
  /\ dict_get (lit "memory") (resources params) = Some 4%Z
  /\ dict_get (lit "disk") (resources params) = Some 5%Z.
Proof.
  intros U C S E params. subst params. unfold supervisord_session in *.
  unfold sandbox_params in C.
  split; [|split].
  - unfold answer. unfold_run. rewrite U. cbn. replay. reflexivity.
  - unfold after. unfold_run. rewrite U. cbn. replay. log_is.
  - split; [reflexivity|]. split; [vm_compute; reflexivity|]. split.
    + intros p -> N. cbn. destruct p; [contradiction|reflexivity].
    + split; [intros [->| ->]; reflexivity|].
      repeat split; vm_compute; reflexivity.
Qed.

(** X10.  Remote backend: [create_sandbox] never removes, starts or fetches
    a sandbox.  When the service has created the sandbox and the session
    creation then fails, the exception is raised to the caller after the two
    calls, and the sandbox that was created stays in the service. *)
Theorem create_sandbox_remote_no_cleanup (pw : str) (pid : option str)
    (w : World X) :
  _use_daytona w = true ->
  let run := create_sandbox img pw pid in
  (count is_remove (new_events w (after run w)) = 0
   /\ count is_start (new_events w (after run w)) = 0
   /\ count is_get (new_events w (after run w)) = 0
   /\ count is_create (new_events w (after run w)) = 1)
  /\ (forall e x1,
        daytona_create (sandbox_params img pw pid) (ext w) = (Raise e, x1) ->
        answer run w = Raise e
        /\ new_events w (after run w) = [Create (sandbox_params img pw pid)])
  /\ (forall sb x1 e x2,
        daytona_create (sandbox_params img pw pid) (ext w) = (Ok sb, x1) ->
        remote_create_session sb supervisord_session x1 = (Raise e, x2) ->
        answer run w = Raise e
        /\ new_events w (after run w)
           = [Create (sandbox_params img pw pid);
              CreateSession sb supervisord_session]).
Proof.
  intros U run. subst run. unfold supervisord_session, sandbox_params.
  split; [|split].
  - unfold after.
    destruct (create_sandbox img pw pid w) as [r w'] eqn:R. cbn [snd].
    revert R. unfold_run. rewrite U. cbn.
    repeat case_match; simplify_eq; cbn; intros [= <- <-];
      try (match goal with
           | Hn : negb _ = true |- _ =>
             cbn in Hn; rewrite U in Hn; discriminate Hn
           end);
      count_log.
  - intros. unfold answer, after. unfold_run. rewrite U. cbn. replay.
    split; [reflexivity | log_is].
  - intros. unfold answer, after. unfold_run. rewrite U. cbn. replay.
    split; [reflexivity | log_is].
Qed.

(** X11.  Remote backend: [delete_sandbox] removes the sandbox its fetch
    returned and answers [True]; when the fetch fails nothing is removed, and
    when the removal fails its exception is raised.  It never starts or
    creates a sandbox. *)
Theorem delete_sandbox_remote (sid : str) (w : World X) :
  _use_daytona w = true ->
  let run := delete_sandbox sid in
  (forall e x1,
     daytona_get_current_sandbox sid (ext w) = (Raise e, x1) ->
     answer run w = Raise e
     /\ new_events w (after run w) = [GetCurrentSandbox sid])
  /\ (forall sb x1 r x2,
        daytona_get_current_sandbox sid (ext w) = (Ok sb, x1) ->
        daytona_remove sb x1 = (r, x2) ->
        answer run w = match r with Ok _ => Ok true | Raise e => Raise e end
        /\ new_events w (after run w) = [GetCurrentSandbox sid; Remove sb]
        /\ _local_sandbox (after run w) = _local_sandbox w)
  /\ count is_start (new_events w (after run w)) = 0
  /\ count is_create (new_events w (after run w)) = 0
  /\ count is_remove (new_events w (after run w)) <= 1.
Proof.
  intros U run. subst run. split; [|split].
  - intros. unfold answer, after. unfold_run. rewrite U. cbn. replay.
    split; [reflexivity | log_is].
  - intros sb x1 r x2 G Rm. unfold answer, after. unfold_run. rewrite U. cbn.
    replay. destruct r as [[]|e]; cbn;
      (split; [reflexivity|]); (split; [log_is | reflexivity]).
  - unfold after.
    destruct (delete_sandbox sid w) as [r w'] eqn:R. cbn [snd].
    revert R. unfold_run. rewrite U. cbn.
    repeat case_match; simplify_eq; cbn; intros [= <- <-];
      try (match goal with
           | Hn : negb _ = true |- _ =>
             cbn in Hn; rewrite U in Hn; discriminate Hn
           end);
      count_log.
Qed.
End RemoteCalls.

(** ** The supervisor session and the arguments the local backend ignores *)

Section Supervisor.
Context {X : Type} `{External X}.
Variable img : str.

(** X12.  [start_supervisord_session] does nothing at all on the local
    backend, whatever it is handed.  On the remote backend it creates the
    session [supervisord-session] first and submits the supervisor command
    into it, asynchronously, only when the creation succeeded; a failure of
    either call is the caller's exception. *)
Theorem start_supervisord_session_behaviour (h : Handle) (w : World X) :
  (_use_daytona w = false -> start_supervisord_session h w = (Ok tt, w))
  /\ (forall sb e x1,
        _use_daytona w = true -> h = RemoteH sb ->
        remote_create_session sb supervisord_session (ext w) = (Raise e, x1) ->
        answer (start_supervisord_session h) w = Raise e
        /\ new_events w (after (start_supervisord_session h) w)
           = [CreateSession sb supervisord_session])
  /\ (forall sb x1 r x2,
        _use_daytona w = true -> h = RemoteH sb ->
        remote_create_session sb supervisord_session (ext w) = (Ok tt, x1) ->
        remote_execute_session_command sb supervisord_session
          supervisord_request x1 = (r, x2) ->
        answer (start_supervisord_session h) w = r
        /\ new_events w (after (start_supervisord_session h) w)
           = [CreateSession sb supervisord_session;
              ExecuteSessionCommand sb supervisord_session
                {| command :=
                     lit "exec /usr/bin/supervisord -n -c /etc/supervisor/conf.d/supervisord.conf";
                   var_async := true |}]).
Proof.
  unfold supervisord_session. split; [|split].
  - intros U. unfold_run. rewrite U. reflexivity.
  - intros sb e x1 U -> C. unfold answer, after. unfold_run. rewrite U. cbn.
    replay. split; [reflexivity | log_is].
  - intros sb x1 r x2 U -> C E. unfold answer, after. unfold_run.
    rewrite U. cbn. replay. destruct r as [[]|e]; cbn;
      (split; [reflexivity | log_is]).
Qed.

(** X13.  On the local backend the arguments of the lifecycle functions are
    not consulted: [get_or_start_sandbox] gives the same answer and the same
    world for every identifier, [create_sandbox] for every image, password
    and project id, [delete_sandbox] for every identifier; and
    [create_sandbox] does exactly what [get_or_start_sandbox] does. *)
Theorem local_backend_ignores_arguments (w : World X) (sid sid' pw pw' : str)
    (pid pid' : option str) (img' : str) :
  _use_daytona w = false ->
  get_or_start_sandbox sid w = get_or_start_sandbox sid' w
  /\ create_sandbox img pw pid w = create_sandbox img' pw' pid' w
  /\ create_sandbox img pw pid w = get_or_start_sandbox sid w
  /\ delete_sandbox sid w = delete_sandbox sid' w.
Proof.
  intros U.
  rewrite !(get_or_start_sandbox_local _ w U).
  rewrite (create_sandbox_local img pw pid w U),
    (create_sandbox_local img' pw' pid' w U).
  repeat split. unfold delete_sandbox, bind, read. now rewrite U.
Qed.
End Supervisor.

(** ** What the local operations launch *)

Lemma targets_exec (cid d : str) (rest : list str) (input : option bytes) :
  targets cid (Subprocess (lit "docker" :: lit "exec" :: cid :: d :: rest)
                 input) = true.
Proof.
  unfold targets. eval_lits. cbn [andb].
  now rewrite (bool_decide_eq_true_2 (cid = cid)) by reflexivity.
Qed.

Lemma targets_exec_i (cid : str) (rest : list str) (input : option bytes) :
  targets cid
    (Subprocess (lit "docker" :: lit "exec" :: lit "-i" :: cid :: rest) input)
  = true.
Proof.
  unfold targets. eval_lits. cbn [andb].
  rewrite (bool_decide_eq_true_2 (cid = cid)) by reflexivity.
  now destruct (bool_decide (lit "-i" = cid)).
Qed.

Lemma routed_log {X A} (b : bool) (P : Event -> bool) (m : M X A)
    (w : World X) :
  routed b P m -> _use_daytona w = b ->
  forallb P (new_events w (after m w)) = true.
Proof.
  intros R U. destruct (R w U) as (_ & l & T & F). unfold after.
  now rewrite (new_events_app w _ l T).
Qed.

(** Decompose a routing goal whose events are [docker exec] commands. *)
Ltac route_exec :=
  repeat first
    [ apply routed_bind
    | apply routed_ret
    | apply routed_raise
    | apply routed_subprocess_run; first [apply targets_exec_i
                                         | apply targets_exec]
    | apply routed_call; first [apply targets_exec_i | apply targets_exec]
    | match goal with
      | |- forall _, _ => intro
      | |- routed _ _ (match ?t with _ => _ end) => destruct t
      | |- routed _ _ (if ?t then _ else _) => destruct t
      end ].

Section LocalCommands.
Context {X : Type} `{External X}.
Variable text_layer : bytes -> option str.


(** X15.  For every path and every byte string, [upload_file] launches one
    command, whatever comes of it: [bash -c] with a script that the shell
    reads as [cat], a redirection, and one word that denotes exactly the
    path; the bytes go to the child's standard input unchanged.  No path
    can add a second command to the script. *)
Theorem upload_file_quotes_path (self : LocalFS) (path : str) (data : bytes)
    (w : World X) :
  let script := lit "cat > " ++ shlex_quote path in
  new_events w (after (LocalFS_upload_file self path data) w)
  = [Subprocess
       [lit "docker"; lit "exec"; lit "-i"; fs_container_id self; lit "bash";
        lit "-c"; script]
       (Some data)]
  /\ redirect_target script = Some path
  /\ sh_word (shlex_quote path) = Some path
  /\ has_nul script = has_nul path.
Proof.
  cbv zeta. split; [|split; [|split]].
  - unfold after, LocalFS_upload_file. unfold_run.
    destruct (spawn _ _ (ext w)) as [[p|e] x]; cbn; log_is.
  - apply redirect_target_upload.
  - apply sh_word_shlex_quote.
  - rewrite has_nul_app. change (has_nul (lit "cat > ")) with false.
    cbn [orb]. unfold shlex_quote. destruct path as [|c r]; [reflexivity|].
    destruct (forallb shlex_safe (c :: r)); [reflexivity|].
    fold quoted_quote. rewrite !has_nul_app, has_nul_replace.
    cbn. now rewrite orb_false_r.
Qed.

(** X18.  The session logs are the decoded output of [tmux capture-pane]
    for the whole pane, whatever the exit status of the child and whatever
    command identifier is asked for; what the child wrote to its error
    stream is dropped.  When either stream does not decode,
    [UnicodeDecodeError] is raised. *)
Theorem get_session_command_logs_whole_pane (self : LocalProcess)
    (sid : str) (w : World X) (p : ProcessExit) (x1 : X) :
  spawn (capture_pane_args (process_container_id self) sid) None (ext w)
  = (Ok p, x1) ->
  (forall out err,
     text_layer (exit_stdout p) = Some out ->
     text_layer (exit_stderr p) = Some err ->
     forall c, answer (LocalProcess_get_session_command_logs text_layer self
                         sid c) w = Ok out)
  /\ (text_layer (exit_stdout p) = None \/ text_layer (exit_stderr p) = None ->
      forall c, answer (LocalProcess_get_session_command_logs text_layer self
                          sid c) w = Raise UnicodeDecodeError)
  /\ forall c c',
       LocalProcess_get_session_command_logs text_layer self sid c w
       = LocalProcess_get_session_command_logs text_layer self sid c' w.
Proof.
  intros S. split; [|split].
  - intros out err O E c. unfold answer, LocalProcess_get_session_command_logs.
    unfold_run. rewrite S. cbn. now rewrite O, E.
  - intros Bad c. unfold answer, LocalProcess_get_session_command_logs.
    unfold_run. rewrite S. cbn.
    destruct Bad as [-> | ->]; [reflexivity|].
    now destruct (text_layer (exit_stdout p)).
  - reflexivity.
Qed.
End LocalCommands.

(** ** Preview links and the credential *)

Lemma lit_inj (s t : string) : lit s = lit t -> s = t.
Proof.
  unfold lit. intros E.
  assert (I : forall a b : list byte,
             map Byte.to_N a = map Byte.to_N b -> a = b).
  { induction a as [|x a IH]; intros [|y b]; cbn; try discriminate;
      [reflexivity|].
    intros [= Exy Eab]. f_equal; [|now apply IH].
    apply (f_equal Byte.of_N) in Exy. rewrite !Byte.of_to_N in Exy.
    now injection Exy. }
  apply I in E.
  rewrite <- (string_of_list_byte_of_string s),
    <- (string_of_list_byte_of_string t).
  now rewrite E.
Qed.

Lemma to_int_not_nil (n : Z) :
  Z.to_int n <> Decimal.Pos Decimal.Nil /\ Z.to_int n <> Decimal.Neg Decimal.Nil.
Proof.
  destruct n as [|p|p]; cbn; split; try discriminate;
    intros [= E]; exact (DecimalPos.Unsigned.to_uint_nonnil p E).
Qed.

Lemma str_of_int_inj (n m : Z) : str_of_int n = str_of_int m -> n = m.
Proof.
  unfold str_of_int. intros E%lit_inj.
  destruct (to_int_not_nil n) as [Pn Nn], (to_int_not_nil m) as [Pm Nm].
  apply (f_equal NilZero.int_of_string) in E.
  rewrite !NilZero.isi in E by assumption.
  injection E as E. now apply DecimalZ.to_int_inj.
Qed.

(** X16.  The preview link of a local sandbox does not depend on the
    sandbox, and it names the port faithfully: two links are equal only when
    their ports are equal. *)
Theorem get_preview_link_injective (sb sb' : LocalSandbox) (port port' : Z) :
  get_preview_link sb port = get_preview_link sb' port
  /\ (get_preview_link sb port = get_preview_link sb' port' <-> port = port').
Proof.
  split; [reflexivity|]. split.
  - unfold get_preview_link. intros E%app_inv_head. now apply str_of_int_inj.
  - now intros ->.
Qed.

(** X17.  White space around the credential does not matter: a value and
    the same value with blank padding on either side give the same trimmed
    key, hence the same backend; the key the module keeps never has white
    space at either end. *)
Theorem credential_padding_ignored (environ environ' : str -> option str)
    (a v b : str) :
  environ (lit "DAYTONA_API_KEY") = Some (a ++ v ++ b) ->
  environ' (lit "DAYTONA_API_KEY") = Some v ->
  forallb isspace a = true ->
  forallb isspace b = true ->
  _daytona_api_key environ = _daytona_api_key environ'
  /\ trimmed (_daytona_api_key environ)
  /\ forall (X : Type) (f : str) (x : X),
       _use_daytona (module_init environ f x)
       = _use_daytona (module_init environ' f x).
Proof.
  intros E E' A B.
  assert (K : _daytona_api_key environ = _daytona_api_key environ').
  { unfold _daytona_api_key, getenv. rewrite E, E'. now apply strip_padding. }
  split; [exact K|]. split; [apply strip_trimmed|].
  intros X f x. cbn. now rewrite K.
Qed.

(** ** The further theorems at concrete worlds *)

Lemma ensure_raise_remembers_nothing_witness :
  let w := scripted_world false [AProcess (Ok (failed 1 "no daemon"))] in
  answer _ensure_local_sandbox w
  = Raise (CalledProcessError 1 (up_args compose_path))
  /\ _local_sandbox (after _ensure_local_sandbox w) = None
  /\ next_address (after _ensure_local_sandbox w) = next_address w.
Proof.
  intros w. split; [vm_compute; reflexivity|].
  destruct (ensure_raise_remembers_nothing w (after _ensure_local_sandbox w)
              (CalledProcessError 1 (up_args compose_path)))
    as (_ & B & C & _).
  { vm_compute. reflexivity. }
  split; [exact B | exact C].
Defined.

Lemma ensure_up_failure_witness :
  let w := scripted_world false [AProcess (Ok (failed 1 "no daemon"))] in
  answer _ensure_local_sandbox w
  = Raise (CalledProcessError 1 (up_args compose_path))
  /\ count (is_ps compose_path)
       (new_events w (after _ensure_local_sandbox w)) = 0.
Proof.
  intros w.
  destruct (ensure_up_failure w (failed 1 "no daemon") [])
    as (A & _ & C).
  { reflexivity. }
  { reflexivity. }
  { discriminate. }
  split; [exact A | exact C].
Defined.

Lemma ensure_lookup_failure_witness :
  answer _ensure_local_sandbox
    (scripted_world false
       [AProcess (Ok (exited 0 []));
        AProcess (Ok (failed 2 "no such service"))])
  = Raise (CalledProcessError 2 (ps_args compose_path))
  /\ answer _ensure_local_sandbox
       (scripted_world false
          [AProcess (Ok (exited 0 [])); AProcess (Ok (exited 0 [xff]))])
     = Raise UnicodeDecodeError.
Proof.
  split.
  - destruct (ensure_lookup_failure
                (scripted_world false
                   [AProcess (Ok (exited 0 []));
                    AProcess (Ok (failed 2 "no such service"))])
                (exited 0 []) (failed 2 "no such service")
                [AProcess (Ok (failed 2 "no such service"))] [])
      as (A & _).
    + reflexivity.
    + reflexivity.
    + reflexivity.
    + reflexivity.
    + left. discriminate.
    + exact A.
  - destruct (ensure_lookup_failure
                (scripted_world false
                   [AProcess (Ok (exited 0 []));
                    AProcess (Ok (exited 0 [xff]))])
                (exited 0 []) (exited 0 [xff])
                [AProcess (Ok (exited 0 [xff]))] [])
      as (A & _).
    + reflexivity.
    + reflexivity.
    + reflexivity.
    + reflexivity.
    + right. vm_compute. reflexivity.
    + exact A.
Defined.

Lemma ensure_identifier_well_formed_witness :
  (exists p2 text,
     spawn (ps_args compose_path) None
       (ext (after (subprocess_run (up_args compose_path) None false true)
                   (local_world fresh_docker)))
     = (Ok p2, ext running_world)
     /\ decode (exit_stdout p2) = Some text
     /\ (forallb isspace text = false -> id first_sandbox = strip text)
     /\ sandbox_ok first_sandbox)
  /\ exists sb,
       answer _ensure_local_sandbox
         (scripted_world false
            [AProcess (Ok (exited 0 [])); AProcess (Ok (exited 0 [x0a]))])
       = Ok sb
       /\ id sb = lit "local-sandbox"
       /\ sandbox_ok sb.
Proof.
  split.
  - destruct (ensure_identifier_well_formed (local_world fresh_docker)
                running_world first_sandbox)
      as (p1 & x1 & p2 & text & S1 & _ & S2 & _ & D & _ & I & _ & K).
    + reflexivity.
    + vm_compute. reflexivity.
    + exists p2, text. split; [|split; [exact D | split; [exact I | exact K]]].
      rewrite <- S2. f_equal. vm_compute in S1. injection S1 as _ <-.
      vm_compute. reflexivity.
  - exists (make_LocalSandbox 0 "local-sandbox").
    split; [vm_compute; reflexivity|].
    destruct (ensure_identifier_well_formed
                (scripted_world false
                   [AProcess (Ok (exited 0 []));
                    AProcess (Ok (exited 0 [x0a]))])
                (after _ensure_local_sandbox
                   (scripted_world false
                      [AProcess (Ok (exited 0 []));
                       AProcess (Ok (exited 0 [x0a]))]))
                (make_LocalSandbox 0 "local-sandbox"))
      as (p1 & x1 & p2 & text & _ & _ & _ & _ & _ & _ & _ & _ & A).
    + reflexivity.
    + vm_compute. reflexivity.
    + split; [reflexivity | exact A].
Defined.

Lemma module_state_invariant_witness :
  memo_ok (run_ops image_name
             [CreateSandbox "pw" None; DeleteSandbox "sb-1";
              GetOrStart "sb-1"]
             (local_world fresh_docker)).
Proof.
  exact (proj1 (module_state_invariant image_name no_environ compose_path
                  (host fresh_docker (cloud_with true true STOPPED))
                  [CreateSandbox "pw" None; DeleteSandbox "sb-1";
                   GetOrStart "sb-1"])).
Defined.

Lemma ensure_allocates_at_most_once_witness :
  let w := scripted_world false
             [AProcess (Ok (failed 1 "no daemon"));
              AProcess (Ok (exited 0 [])); AProcess (Ok (exited 0 [x0a]))] in
  let cs := [Direct; ViaGetOrStart "sb-7"; ViaCreate "pw" None] in
  next_address (snd (run_calls image_name cs w)) <= S (next_address w).
Proof.
  intros w cs.
  destruct (ensure_allocates_at_most_once image_name cs w) as ((_ & B) & _).
  - reflexivity.
  - exact B.
Defined.

Lemma get_or_start_sandbox_failure_propagates_witness :
  let w := scripted_world true
             [ASandbox (Ok (sb1 STOPPED)); ADone (Raise quota)] in
  answer (get_or_start_sandbox "sb-1") w = Raise quota
  /\ new_events w (after (get_or_start_sandbox "sb-1") w)
     = [GetCurrentSandbox "sb-1"; Start (sb1 STOPPED)].
Proof.
  intros w.
  destruct (get_or_start_sandbox_failure_propagates "sb-1" w)
    as (_ & B & _).
  - reflexivity.
  - apply (B (sb1 STOPPED) [ADone (Raise quota)] quota []); reflexivity.
Defined.

Lemma get_or_start_sandbox_bounded_calls_witness :
  let w := scripted_world true restart_script in
  let l := new_events w (after (get_or_start_sandbox "sb-1") w) in
  count is_get l <= 2 /\ count is_start l <= 1 /\ count is_remove l = 0.
Proof.
  intros w l.
  destruct (get_or_start_sandbox_bounded_calls "sb-1" w)
    as ((_ & A) & B & _ & _ & _ & C & _).
  - reflexivity.
  - split; [exact A|]. split; [exact B | exact C].
Defined.

Lemma create_sandbox_remote_witness :
  let w := scripted_world true
             [ASandbox (Ok (sb1 RUNNING)); ADone (Ok tt); ADone (Ok tt)] in
  answer (create_sandbox image_name "pw" (Some (lit "p1"))) w
  = Ok (RemoteH (sb1 RUNNING))
  /\ labels (sandbox_params image_name "pw" (Some (lit "p1")))
     = Some [(lit "id", lit "p1")].
Proof.
  intros w.
  destruct (create_sandbox_remote image_name "pw" (Some (lit "p1")) w
              (sb1 RUNNING) [ADone (Ok tt); ADone (Ok tt)] [ADone (Ok tt)] [])
    as (A & _ & _ & _ & L & _).
  - reflexivity.
  - reflexivity.
  - reflexivity.
  - reflexivity.
  - split; [exact A|]. apply (L (lit "p1")); [reflexivity | discriminate].
Defined.

Lemma create_sandbox_remote_no_cleanup_witness :
  let w := scripted_world true
             [ASandbox (Ok (sb1 RUNNING)); ADone (Raise quota)] in
  answer (create_sandbox image_name "pw" None) w = Raise quota
  /\ count is_remove
       (new_events w (after (create_sandbox image_name "pw" None) w)) = 0.
Proof.
  intros w.
  destruct (create_sandbox_remote_no_cleanup image_name "pw" None w)
    as ((A & _) & _ & C).
  - reflexivity.
  - split; [|exact A].
    apply (C (sb1 RUNNING) [ADone (Raise quota)] quota []); reflexivity.
Defined.

Lemma delete_sandbox_remote_witness :
  let w := scripted_world true [ASandbox (Ok (sb1 RUNNING)); ADone (Ok tt)] in
  answer (delete_sandbox "sb-1") w = Ok true
  /\ new_events w (after (delete_sandbox "sb-1") w)
     = [GetCurrentSandbox "sb-1"; Remove (sb1 RUNNING)].
Proof.
  intros w.
  destruct (delete_sandbox_remote "sb-1" w) as (_ & B & _).
  - reflexivity.
  - destruct (B (sb1 RUNNING) [ADone (Ok tt)] (Ok tt) [])
      as (A & L & _); [reflexivity | reflexivity |].
    split; [exact A | exact L].
Defined.

Lemma start_supervisord_session_behaviour_witness :
  start_supervisord_session (LocalH first_sandbox) running_world
  = (Ok tt, running_world)
  /\ answer (start_supervisord_session (RemoteH (sb1 RUNNING)))
       (scripted_world true [ADone (Ok tt); ADone (Raise quota)])
     = Raise quota.
Proof.
  split.
  - apply (proj1 (start_supervisord_session_behaviour
                    (LocalH first_sandbox) running_world)).
    reflexivity.
  - destruct (start_supervisord_session_behaviour (RemoteH (sb1 RUNNING))
                (scripted_world true [ADone (Ok tt); ADone (Raise quota)]))
      as (_ & _ & C).
    destruct (C (sb1 RUNNING) [ADone (Raise quota)] (Raise quota) [])
      as (A & _);
      [reflexivity | reflexivity | reflexivity | reflexivity | exact A].
Defined.

Lemma local_backend_ignores_arguments_witness :
  let w := local_world fresh_docker in
  create_sandbox image_name "pw" (Some (lit "p1")) w
  = get_or_start_sandbox "sb-1" w
  /\ delete_sandbox "sb-1" w = delete_sandbox "sb-2" w.
Proof.
  intros w.
  destruct (local_backend_ignores_arguments image_name w "sb-1" "sb-2"
              "pw" "pw2" (Some (lit "p1")) None "other/image")
    as (_ & _ & C & D).
  - reflexivity.
  - split; [exact C | exact D].
Defined.

Lemma get_session_command_logs_whole_pane_witness :
  let pane := {| exit_status := 1;
                 exit_stdout := list_byte_of_string "$ make";
                 exit_stderr := list_byte_of_string "no server" |} in
  answer (LocalProcess_get_session_command_logs decode
            (process first_sandbox) "s1" (Some (lit "cmd-1")))
         (scripted_world false [AProcess (Ok pane)])
  = Ok (lit "$ make").
Proof.
  intros pane.
  destruct (get_session_command_logs_whole_pane decode
              (process first_sandbox) "s1"
              (scripted_world false [AProcess (Ok pane)]) pane [])
    as (A & _).
  - reflexivity.
  - apply (A (lit "$ make") (lit "no server")); vm_compute; reflexivity.
Defined.

Lemma credential_padding_ignored_witness :
  _daytona_api_key
    (environ_with "DAYTONA_API_KEY" (lit "  " ++ lit "secret" ++ [10%N]))
  = _daytona_api_key (environ_with "DAYTONA_API_KEY" "secret").
Proof.
  destruct (credential_padding_ignored
              (environ_with "DAYTONA_API_KEY"
                 (lit "  " ++ lit "secret" ++ [10%N]))
              (environ_with "DAYTONA_API_KEY" "secret")
              (lit "  ") (lit "secret") [10%N])
    as (A & _).
  - vm_compute. reflexivity.
  - vm_compute. reflexivity.
  - vm_compute. reflexivity.
  - vm_compute. reflexivity.
  - exact A.
Defined.
